(** * Shopify multi-country feed: bulk sync and incremental diff engine

    A shallow embedding of the Python sources
    (meta-auto-country-feed and google-auto-country-feed) and the
    properties of the specification proved or refuted on it.

    Conventions of the embedding.
    - A Python [dict] keyed by strings is a [gmap string _].  Python
      iterates a dict in insertion order; [map_to_list] iterates in the
      order of the map's representation, so every statement about a list
      produced by iterating a dict is up to the order of its elements.
    - A Python [set] of strings is a [gset string].
    - Integers are [Z]; strings are [string], one character per code
      point below 256.
    - The untyped dictionaries the code passes around are records with
      one field per key the code reads; a key read with [.get(k)] that
      may be missing is an [option]. *)

From Stdlib Require Import ZArith Ascii String List.
From stdpp Require Import gmap strings list fin_maps sorting.

Local Open Scope string_scope.
Local Open Scope Z_scope.

(** ** Python string operations used by the sources *)

Module PyStr.

(** [s.split(sep)] for a one-character separator: never empty. *)
Fixpoint split (sep : ascii) (s : string) : list string :=
  match s with
  | EmptyString => [EmptyString]
  | String c s' =>
      if Ascii.eqb c sep then EmptyString :: split sep s'
      else match split sep s' with
           | [] => [String c EmptyString]
           | hd :: tl => String c hd :: tl
           end
  end.

(** [s.split(sep)[-1]] *)
Definition last_part (sep : ascii) (s : string) : string :=
  List.last (split sep s) EmptyString.

(** [s.rsplit(sep, 1)] when [sep] occurs in [s]: the text before the
    last separator and the text after it; [None] when [sep] does not
    occur (Python then returns the one-element list [[s]]). *)
Fixpoint rsplit1 (sep : ascii) (s : string) : option (string * string) :=
  match s with
  | EmptyString => None
  | String c s' =>
      match rsplit1 sep s' with
      | Some (a, b) => Some (String c a, b)
      | None => if Ascii.eqb c sep then Some (EmptyString, s') else None
      end
  end.

(** [c in s] for a character. *)
Fixpoint has_char (c : ascii) (s : string) : bool :=
  match s with
  | EmptyString => false
  | String d s' => Ascii.eqb d c || has_char c s'
  end.

(** [sub in s] for strings. *)
Fixpoint contains (sub s : string) : bool :=
  String.prefix sub s ||
  match s with
  | EmptyString => false
  | String _ s' => contains sub s'
  end.

(** Truthiness of a string: [bool(s)]. *)
Definition truthy (s : string) : bool :=
  match s with EmptyString => false | _ => true end.

(** Truthiness of [d.get(k)] for a string-valued key. *)
Definition truthy_opt (o : option string) : bool :=
  match o with Some s => truthy s | None => false end.

End PyStr.

Definition dash : ascii := "-"%char.
Definition slash : ascii := "/"%char.

(** ** The projected row: CountryVariant

    The dictionary built by [_create_country_variant_from_bulk].  The
    consumers read it with [.get], so the keys they test for presence
    are options.  The keys that neither the state manager nor the
    exporters read (price, size, updated_at, product title, handle,
    description, featured image) are left out. *)

Record CountryVariant := {
  cv_id : option string;               (* "id" *)
  cv_shopify_variant_id : string;      (* "shopify_variant_id" *)
  cv_country_code : option string;     (* "country_code" *)
  cv_country_name : string;            (* "country_name" *)
  cv_inventory_quantity : option Z;    (* "inventory_quantity" *)
  cv_sku : string;                     (* "sku" *)
  cv_product_id : option string        (* "product_id" *)
}.

#[global] Instance CountryVariant_eq_dec : EqDecision CountryVariant.
Proof. solve_decision. Defined.

(** [_safe_int]: [None] becomes 0; an [int] goes through
    [int(float(str(value)))], which is the identity on the integers a
    float represents exactly and keeps the sign of every integer it
    accepts. Quantities here are such integers. *)
Definition _safe_int (value : option Z) : Z :=
  match value with
  | None => 0
  | Some z => z
  end.

Inductive stock_status := in_stock | out_of_stock.

#[global] Instance stock_status_eq_dec : EqDecision stock_status.
Proof. solve_decision. Defined.

(** ["in stock" if inventory_qty > 0 else "out of stock"] *)
Definition status_of_qty (inventory_qty : Z) : stock_status :=
  if 0 <? inventory_qty then in_stock else out_of_stock.

Definition current_status (variant : CountryVariant) : stock_status :=
  status_of_qty (_safe_int (cv_inventory_quantity variant)).

(** ** state_management/state_manager.py *)

Module StateManager.

(** One entry of variant_states.json. *)
Record VariantState := {
  stock_status_of : stock_status;   (* 'stock_status' *)
  last_updated : Z                  (* 'last_updated' *)
}.

(** The two state files.  [variant_states = None] is a missing
    variant_states.json, which [_load_variant_states] reads as the
    empty dictionary; [sync_state] is 'last_successful_run' of
    sync_state.json.  Reading and writing them succeeds; the handlers
    that log a failed read or write and go on are not modelled. *)
Record files := {
  sync_state : option Z;
  variant_states : option (gmap string VariantState)
}.

Definition _load_variant_states (f : files) : gmap string VariantState :=
  match variant_states f with
  | Some m => m
  | None => ∅
  end.

Definition load_sync_state (f : files) : option Z := sync_state f.

Definition save_sync_state (timestamp : Z) (f : files) : files :=
  {| sync_state := Some timestamp; variant_states := variant_states f |}.

Definition reset_variant_states (f : files) : files :=
  {| sync_state := sync_state f; variant_states := None |}.

(** The loop that fills [variant_lookup]: a later variant with the
    same id overwrites the earlier one; a variant without an id (or
    with an empty one) is left out. *)
Definition lookup_step (variant_lookup : gmap string (CountryVariant * stock_status))
    (variant : CountryVariant) : gmap string (CountryVariant * stock_status) :=
  match cv_id variant with
  | Some variant_id =>
      if PyStr.truthy variant_id
      then <[variant_id := (variant, current_status variant)]> variant_lookup
      else variant_lookup
  | None => variant_lookup
  end.

Definition build_variant_lookup (current_variants : list CountryVariant)
    : gmap string (CountryVariant * stock_status) :=
  foldl lookup_step ∅ current_variants.

Definition is_new_entry (existing_states : gmap string VariantState)
    (e : string * (CountryVariant * stock_status)) : bool :=
  match existing_states !! e.1 with
  | None => true
  | Some _ => false
  end.

Definition is_changed_entry (existing_states : gmap string VariantState)
    (e : string * (CountryVariant * stock_status)) : bool :=
  match existing_states !! e.1 with
  | None => false
  | Some st => negb (bool_decide (stock_status_of st = e.2.2))
  end.

Definition detect_stock_changes (f : files) (current_variants : list CountryVariant)
    : list CountryVariant * list CountryVariant :=
  match current_variants with
  | [] => ([], [])
  | _ =>
      let existing_states := _load_variant_states f in
      let variant_lookup := map_to_list (build_variant_lookup current_variants) in
      ((λ e, e.2.1) <$> filter (λ e, is_new_entry existing_states e = true) variant_lookup,
       (λ e, e.2.1) <$> filter (λ e, is_changed_entry existing_states e = true) variant_lookup)
  end.

Definition update_step (timestamp : Z) (existing_states : gmap string VariantState)
    (variant : CountryVariant) : gmap string VariantState :=
  match cv_id variant with
  | Some variant_id =>
      if PyStr.truthy variant_id
      then <[variant_id := {| stock_status_of := current_status variant;
                              last_updated := timestamp |}]> existing_states
      else existing_states
  | None => existing_states
  end.

Definition update_variant_states (timestamp : Z) (variants : list CountryVariant)
    (f : files) : files :=
  match variants with
  | [] => f
  | _ =>
      {| sync_state := sync_state f;
         variant_states :=
           Some (foldl (update_step timestamp) (_load_variant_states f) variants) |}
  end.

End StateManager.


(** ** shopify_client/product_loader.py *)

Module ProductLoader.

(** The embedded 'product' object of a variant record.  Only 'id' is
    tested for presence. *)
Record ProductData := {
  pd_id : option string;
  pd_title : string;
  pd_handle : string
}.

(** One element of 'quantities'. *)
Record Quantity := {
  q_name : option string;      (* qty.get('name') *)
  q_quantity : option Z        (* qty.get('quantity', 0): None is a missing key *)
}.

(** One decoded line of the export.  [r_product] is [None] when the key
    'product' is missing or falsy; [r_sku] is [inventoryItem.sku]
    ([None] without an inventory item or without its 'sku');
    [r_location] is [Some gid] when the key 'location' is present, with
    [gid] the location's 'id' ('' when that is missing); [r_quantities]
    is [Some _] when the key 'quantities' is present. *)
Record BulkRecord := {
  r_id : string;                          (* record.get('id', '') *)
  r_parentId : string;                    (* record.get('__parentId', '') *)
  r_product : option ProductData;
  r_sku : option string;
  r_location : option string;
  r_quantities : option (list Quantity)
}.

(** A value of the [products] dictionary: a standalone product record or
    the product embedded in a variant. *)
Inductive ProductEntry :=
| Standalone (record : BulkRecord)
| Embedded (product_data : ProductData).

(** The three dictionaries of [load_products_from_bulk_jsonl]. *)
Record Graph := {
  products : gmap string ProductEntry;
  variants : gmap string BulkRecord;
  inventory_levels : gmap string (list BulkRecord)
}.

Definition empty_graph : Graph :=
  {| products := ∅; variants := ∅; inventory_levels := ∅ |}.

Definition set_variant (record_id : string) (record : BulkRecord) (g : Graph) : Graph :=
  {| products := products g;
     variants := <[record_id := record]> (variants g);
     inventory_levels := inventory_levels g |}.

Definition set_product (product_id : string) (e : ProductEntry) (g : Graph) : Graph :=
  {| products := <[product_id := e]> (products g);
     variants := variants g;
     inventory_levels := inventory_levels g |}.

Definition append_level (parent_id : string) (record : BulkRecord) (g : Graph) : Graph :=
  {| products := products g;
     variants := variants g;
     inventory_levels :=
       <[parent_id := (default [] (inventory_levels g !! parent_id) ++ [record])%list]>
         (inventory_levels g) |}.

Definition _process_bulk_record (record : BulkRecord) (g : Graph) : Graph :=
  let record_id := r_id record in
  let parent_id := r_parentId record in
  if PyStr.truthy record_id && negb (PyStr.truthy parent_id) then
    if PyStr.contains "ProductVariant" record_id then
      let g := set_variant record_id record g in
      match r_product record with
      | Some product_data =>
          match pd_id product_data with
          | Some product_id => set_product product_id (Embedded product_data) g
          | None => g
          end
      | None => g
      end
    else if PyStr.contains "Product" record_id then
      set_product record_id (Standalone record) g
    else g
  else if PyStr.truthy parent_id then
    if bool_decide (is_Some (r_location record)) && bool_decide (is_Some (r_quantities record))
    then append_level parent_id record g
    else if PyStr.truthy record_id && PyStr.contains "ProductVariant" record_id
    then set_variant record_id record g
    else g
  else g.

(** A line of the export file as the reader meets it.
    - [Undecodable]: the bytes are not UTF-8; the text reader raises
      [UnicodeDecodeError] from the [for line in f] loop;
    - [Blank]: [line.strip()] is empty;
    - [NotJson]: [json.loads] raises [JSONDecodeError];
    - [Json r]: [json.loads] returns the object [r]. *)
Inductive Line :=
| Undecodable
| Blank
| NotJson
| Json (record : BulkRecord).

(** The exceptions of the parse loop that reach the outer handler. *)
Inductive ReadError := UnicodeDecodeError.

(** The parse loop.  The inner handler catches [JSONDecodeError] only;
    anything else leaves the loop. *)
Fixpoint parse_lines (lines : list Line) (g : Graph) : ReadError + Graph :=
  match lines with
  | [] => inr g
  | Undecodable :: _ => inl UnicodeDecodeError
  | Blank :: rest => parse_lines rest g
  | NotJson :: rest => parse_lines rest g
  | Json record :: rest => parse_lines rest (_process_bulk_record record g)
  end.

Record CountryInfo := {
  ci_name : string;
  ci_market_id : option string
}.

Record LocationEntry := {
  le_name : option string;
  le_countries : list string
}.

Section Projection.

Variable active_countries : gmap string CountryInfo.
Variable location_country_map : gmap string LocationEntry.

(** The loop over [quantities]: the first entry named 'available'. *)
Fixpoint available_of (quantities : list Quantity) : Z :=
  match quantities with
  | [] => 0
  | qty :: rest =>
      if bool_decide (q_name qty = Some "available")
      then default 0 (q_quantity qty)
      else available_of rest
  end.

Definition inventory_key (variant_id country_code : string) : string :=
  variant_id ++ "-" ++ country_code.

(** The body of [for country_code in countries]. *)
Definition credit_country (variant_id : string) (available_qty : Z)
    (country_inventory : gmap string Z) (country_code : string) : gmap string Z :=
  if bool_decide (is_Some (active_countries !! country_code)) then
    let key := inventory_key variant_id country_code in
    <[key := default 0 (country_inventory !! key) + available_qty]> country_inventory
  else country_inventory.

(** The body of [for level in levels]. *)
Definition credit_level (variant_id : string) (country_inventory : gmap string Z)
    (level : BulkRecord) : gmap string Z :=
  let location_gid := default EmptyString (r_location level) in
  if negb (PyStr.truthy location_gid) then country_inventory
  else
    let location_id := PyStr.last_part slash location_gid in
    let available_qty := available_of (default [] (r_quantities level)) in
    match location_country_map !! location_id with
    | Some entry =>
        if 0 <? available_qty
        then foldl (credit_country variant_id available_qty) country_inventory
               (le_countries entry)
        else country_inventory
    | None => country_inventory
    end.

Definition build_country_inventory (levels_by_variant : gmap string (list BulkRecord))
    : gmap string Z :=
  map_fold (λ variant_id levels country_inventory,
              foldl (credit_level variant_id) country_inventory levels)
           ∅ levels_by_variant.

(** [countries_with_inventory] *)
Definition countries_with_inventory (country_inventory : gmap string Z) : gset string :=
  list_to_set
    ((λ e, PyStr.last_part dash e.1) <$>
       filter (λ e, 0 < e.2) (map_to_list country_inventory)).

Definition _create_country_variant_from_bulk (variant_data : BulkRecord)
    (product_data : option ProductData) (country_code variant_gid : string)
    (country_inventory : gmap string Z) : CountryVariant :=
  let numeric_variant_id := PyStr.last_part slash variant_gid in
  {| cv_id := Some (numeric_variant_id ++ "-" ++ country_code)%string;
     cv_shopify_variant_id := numeric_variant_id;
     cv_country_code := Some country_code;
     cv_country_name :=
       match active_countries !! country_code with
       | Some info => ci_name info
       | None => EmptyString
       end;
     cv_inventory_quantity :=
       Some (default 0 (country_inventory !! inventory_key variant_gid country_code));
     cv_sku := default EmptyString (r_sku variant_data);
     cv_product_id :=
       Some match product_data with
            | Some p => if PyStr.truthy_opt (pd_id p)
                        then PyStr.last_part slash (default EmptyString (pd_id p))
                        else EmptyString
            | None => EmptyString
            end |}.

(** The rows of one variant: one per target country that is active,
    unless the variant has no SKU. *)
Definition rows_of_variant (country_inventory : gmap string Z)
    (target_countries : list string) (e : string * BulkRecord) : list CountryVariant :=
  let variant_id := e.1 in
  let variant_data := e.2 in
  country_code ← target_countries;
  if bool_decide (is_Some (active_countries !! country_code)) then
    if PyStr.truthy_opt (r_sku variant_data)
    then [_create_country_variant_from_bulk variant_data (r_product variant_data)
            country_code variant_id country_inventory]
    else []
  else [].

Definition _build_country_variants_from_bulk (g : Graph) : list CountryVariant :=
  let country_inventory := build_country_inventory (inventory_levels g) in
  let target_countries := elements (countries_with_inventory country_inventory) in
  e ← map_to_list (variants g);
  rows_of_variant country_inventory target_countries e.

(** [jsonl_file = None] is a path that does not exist. *)
Definition load_products_from_bulk_jsonl (jsonl_file : option (list Line))
    : list CountryVariant :=
  match jsonl_file with
  | None => []
  | Some lines =>
      match parse_lines lines empty_graph with
      | inl _ => []
      | inr g => _build_country_variants_from_bulk g
      end
  end.

End Projection.

End ProductLoader.

(** ** output/csv_exporter.py (meta) *)

Module CSVExporter.

Definition FEED_PREFIX : string := "country_feed_".
Definition FEED_EXTENSION : string := ".csv".

(** A CSV file as the rows [csv.reader] yields from it and [csv.writer]
    wrote into it, the header first.  A cell that [csv.writer] receives
    as [None] is written as the empty string. *)
Abbreviation Row := (list string).

(** The output directory: file name to rows.  Opening, writing,
    renaming and unlinking succeed; the handlers of their exceptions
    are not modelled. *)
Abbreviation OutputDir := (gmap string (list Row)).

Definition status_text (s : stock_status) : string :=
  match s with
  | in_stock => "in stock"
  | out_of_stock => "out of stock"
  end.

Definition header : Row := ["id"; "override"; "availability"].

Definition feed_name (country_code : string) : string :=
  FEED_PREFIX ++ country_code ++ FEED_EXTENSION.

Definition _extract_shopify_variant_id (variant : CountryVariant) : string :=
  let composite_id := default EmptyString (cv_id variant) in
  match PyStr.rsplit1 dash composite_id with
  | Some (before, _) => before
  | None => composite_id
  end.

Definition _format_csv_row (variant : CountryVariant) (country_code : string)
    : option Row :=
  let variant_id := _extract_shopify_variant_id variant in
  if negb (PyStr.truthy variant_id) then None
  else Some [variant_id; country_code; status_text (current_status variant)].

Definition is_upper (c : ascii) : bool :=
  (65 <=? nat_of_ascii c)%nat && (nat_of_ascii c <=? 90)%nat.

Definition newline : string := String (ascii_of_nat 10) EmptyString.

(** [re.match(r'^[A-Z]{2}$', s)]: [$] also matches before a final
    newline. *)
Definition two_capitals (s : string) : bool :=
  match s with
  | String a (String b rest) =>
      is_upper a && is_upper b &&
      (String.eqb rest EmptyString || String.eqb rest newline)
  | _ => false
  end.

Section Exporter.

Variable ENABLE_DATA_VALIDATION : bool.

Definition _validate_variant_data (variant : CountryVariant) : bool :=
  if negb ENABLE_DATA_VALIDATION then true
  else if negb (PyStr.truthy_opt (cv_id variant)) then false
  else if negb (PyStr.truthy_opt (cv_country_code variant)) then false
  else if _safe_int (cv_inventory_quantity variant) <? 0 then false
  else two_capitals (default EmptyString (cv_country_code variant)).

(** The test shared by [_get_current_countries] and
    [_get_countries_to_update]. *)
Definition exportable (variant : CountryVariant) : bool :=
  PyStr.truthy_opt (cv_country_code variant) &&
  PyStr.truthy_opt (cv_product_id variant) &&
  _validate_variant_data variant.

Definition _get_current_countries (variants : list CountryVariant) : gset string :=
  list_to_set
    ((λ v, default EmptyString (cv_country_code v)) <$>
       filter (λ v, exportable v = true) variants).

Definition _get_countries_to_update (variants : list CountryVariant) : gset string :=
  list_to_set
    ((λ v, default EmptyString (cv_country_code v)) <$>
       filter (λ v, exportable v = true) variants).

Definition _create_country_variant_generator (variants : list CountryVariant)
    (country_code : string) : list CountryVariant :=
  filter (λ v, cv_country_code v = Some country_code ∧
               PyStr.truthy_opt (cv_product_id v) = true) variants.

(** The rows written below the header. *)
Definition formatted_rows (variants : list CountryVariant) (country_code : string)
    : list Row :=
  omap (λ v, if _validate_variant_data v then _format_csv_row v country_code else None)
       variants.

Definition _create_country_feed_streaming (variant_generator : list CountryVariant)
    (country_code : string) (output_file : string) (dir : OutputDir) : OutputDir :=
  <[output_file := header :: formatted_rows variant_generator country_code]> dir.

(** [glob(OUTPUT_DIR / "country_feed_*.csv")] *)
Definition glob_match (file_name : string) : bool :=
  String.prefix FEED_PREFIX file_name &&
  String.prefix (String.rev FEED_EXTENSION) (String.rev file_name) &&
  (String.length FEED_PREFIX + String.length FEED_EXTENSION <=? String.length file_name)%nat.

Definition _find_existing_country_files (dir : OutputDir) : list string :=
  filter (λ name, glob_match name = true) (map_to_list dir).*1.

(** [re.search(rf'{FEED_PREFIX}([A-Z]{{2}}){re.escape(FEED_EXTENSION)}$', filename)]:
    the name ends, up to one final newline, with the prefix, two
    capital letters and the extension. *)
Definition _extract_country_from_filename (file_name : string) : option string :=
  let stem :=
    if String.prefix (String.rev newline) (String.rev file_name)
    then String.substring 0 (String.length file_name - 1) file_name
    else file_name in
  let n := String.length stem in
  let tail := String.substring (n - 19) 19 stem in
  let code := String.substring 13 2 tail in
  if (19 <=? n)%nat && String.prefix FEED_PREFIX tail &&
     two_capitals code && (String.length code =? 2)%nat &&
     String.eqb (String.substring 15 4 tail) FEED_EXTENSION
  then Some code else None.

Definition is_orphan (current_countries : gset string) (file_name : string) : bool :=
  match _extract_country_from_filename file_name with
  | Some country_code => bool_decide (country_code ∉ current_countries)
  | None => false
  end.

Definition _cleanup_orphaned_country_files (current_countries : gset string)
    (dir : OutputDir) : OutputDir :=
  let existing_files := _find_existing_country_files dir in
  foldr delete dir (filter (λ name, is_orphan current_countries name = true) existing_files).

Definition create_country_feeds_full (variants : list CountryVariant) (dir : OutputDir)
    : OutputDir * list string :=
  match variants with
  | [] => (dir, [])
  | _ =>
      let current_countries := _get_current_countries variants in
      let dir := _cleanup_orphaned_country_files current_countries dir in
      (foldl (λ dir country_code,
                _create_country_feed_streaming
                  (_create_country_variant_generator variants country_code)
                  country_code (feed_name country_code) dir)
             dir (elements current_countries),
       feed_name <$> elements current_countries)
  end.

(** [csv.DictReader]: a data row as a dictionary from the header's
    field names; of two equal field names the later one wins; a field
    beyond the end of a short row has the value [None]. *)
Definition dict_row (fieldnames row : Row) : gmap string (option string) :=
  list_to_map (reverse (zip fieldnames ((Some <$> row) ++ replicate (length fieldnames) None))).

(** [change_lookup] *)
Definition build_change_lookup (country_changed_variants : list CountryVariant)
    : gmap string string :=
  foldl (λ change_lookup variant,
           let variant_id := _extract_shopify_variant_id variant in
           if PyStr.truthy variant_id
           then <[variant_id := status_text (current_status variant)]> change_lookup
           else change_lookup)
        ∅ country_changed_variants.

(** The copy loop over one existing data row; [None] is the [KeyError]
    of [row['id']] or [row['availability']]. *)
Definition copy_row (change_lookup : gmap string string) (country_code : string)
    (fieldnames row : Row) : option (list Row) :=
  let d := dict_row fieldnames row in
  if bool_decide (d !! "override" = Some (Some country_code)) then
    match d !! "id" with
    | None => None
    | Some variant_id =>
        match from_option (λ i, change_lookup !! i) None variant_id with
        | Some availability =>
            Some [[default EmptyString variant_id; country_code; availability]]
        | None =>
            match d !! "availability" with
            | None => None
            | Some availability =>
                Some [[default EmptyString variant_id; country_code;
                       default EmptyString availability]]
            end
        end
    end
  else Some [].

Fixpoint copy_rows (change_lookup : gmap string string) (country_code : string)
    (fieldnames : Row) (rows : list Row) : option (list Row) :=
  match rows with
  | [] => Some []
  | row :: rest =>
      match row with
      | [] => copy_rows change_lookup country_code fieldnames rest
      | _ =>
          match copy_row change_lookup country_code fieldnames row,
                copy_rows change_lookup country_code fieldnames rest with
          | Some a, Some b => Some (a ++ b)%list
          | _, _ => None
          end
      end
  end.

Definition _update_country_feed_streaming (new_variants changed_variants : list CountryVariant)
    (country_code : string) (output_file : string) (dir : OutputDir) : OutputDir :=
  let country_new_variants :=
    filter (λ v, cv_country_code v = Some country_code) new_variants in
  let country_changed_variants :=
    filter (λ v, cv_country_code v = Some country_code) changed_variants in
  match country_new_variants, country_changed_variants with
  | [], [] => dir
  | _, _ =>
      let change_lookup := build_change_lookup country_changed_variants in
      let copied :=
        match dir !! output_file with
        | Some (fieldnames :: rows) => copy_rows change_lookup country_code fieldnames rows
        | Some [] => Some []
        | None => Some []
        end in
      match copied with
      | Some existing =>
          <[output_file :=
              (header :: existing ++ formatted_rows country_new_variants country_code)%list]> dir
      | None => dir
      end
  end.

Definition update_country_feeds_incremental (new_variants changed_variants : list CountryVariant)
    (dir : OutputDir) : OutputDir * list string :=
  match new_variants, changed_variants with
  | [], [] => (dir, [])
  | _, _ =>
      let all_changed := (new_variants ++ changed_variants)%list in
      let countries_to_update := _get_countries_to_update all_changed in
      (foldl (λ dir country_code,
                _update_country_feed_streaming new_variants changed_variants
                  country_code (feed_name country_code) dir)
             dir (elements countries_to_update),
       feed_name <$> elements countries_to_update)
  end.

End Exporter.

End CSVExporter.

(** ** output/tsv_exporter.py (google): the row identifier *)

Module TSVExporter.

Definition _extract_variant_id (variant : CountryVariant) : string :=
  let composite_id := default EmptyString (cv_id variant) in
  match PyStr.rsplit1 dash composite_id with
  | Some (before, _) => before
  | None => composite_id
  end.

(** [str(variant.get("product_id"))] inside the f-string. *)
Definition fmt_opt (o : option string) : string :=
  match o with Some s => s | None => "None" end.

(** [f"shopify_US_{product_id}_{base_id}"] *)
Definition composite_id (variant : CountryVariant) : string :=
  "shopify_US_" ++ fmt_opt (cv_product_id variant) ++ "_" ++ _extract_variant_id variant.

Section Exporter.

Variable _validate_variant_data : CountryVariant → bool.




End Exporter.

End TSVExporter.

(** ** hashlib.md5 (RFC 1321), on 32-bit words as [Z] modulo 2^32 *)

Module MD5.

Definition mask (x : Z) : Z := x mod 2 ^ 32.

Definition rotl (x c : Z) : Z :=
  mask (Z.lor (Z.shiftl x c) (Z.shiftr x (32 - c))).

Definition lnot32 (x : Z) : Z := Z.lxor x (2 ^ 32 - 1).

Definition K : list Z :=
  [ 3614090360; 3905402710; 606105819; 3250441966; 4118548399; 1200080426;
    2821735955; 4249261313; 1770035416; 2336552879; 4294925233; 2304563134;
    1804603682; 4254626195; 2792965006; 1236535329; 4129170786; 3225465664;
    643717713; 3921069994; 3593408605; 38016083; 3634488961; 3889429448;
    568446438; 3275163606; 4107603335; 1163531501; 2850285829; 4243563512;
    1735328473; 2368359562; 4294588738; 2272392833; 1839030562; 4259657740;
    2763975236; 1272893353; 4139469664; 3200236656; 681279174; 3936430074;
    3572445317; 76029189; 3654602809; 3873151461; 530742520; 3299628645;
    4096336452; 1126891415; 2878612391; 4237533241; 1700485571; 2399980690;
    4293915773; 2240044497; 1873313359; 4264355552; 2734768916; 1309151649;
    4149444226; 3174756917; 718787259; 3951481745 ].

Definition S : list Z :=
  [ 7; 12; 17; 22; 7; 12; 17; 22; 7; 12; 17; 22; 7; 12; 17; 22;
    5; 9; 14; 20; 5; 9; 14; 20; 5; 9; 14; 20; 5; 9; 14; 20;
    4; 11; 16; 23; 4; 11; 16; 23; 4; 11; 16; 23; 4; 11; 16; 23;
    6; 10; 15; 21; 6; 10; 15; 21; 6; 10; 15; 21; 6; 10; 15; 21 ].

Definition bytes_of_string (s : string) : list Z :=
  (λ c, Z.of_nat (nat_of_ascii c)) <$> list_ascii_of_string s.

(** The [n] low bytes of [x], least significant first. *)
Fixpoint le_bytes (n : nat) (x : Z) : list Z :=
  match n with
  | O => []
  | Datatypes.S n' => x mod 256 :: le_bytes n' (x / 256)
  end.

Definition pad (msg : list Z) : list Z :=
  let len := Z.of_nat (length msg) in
  (msg ++ [128] ++ replicate (Z.to_nat ((55 - len) mod 64)) 0
       ++ le_bytes 8 ((8 * len) mod 2 ^ 64))%list.

Fixpoint words (bytes : list Z) : list Z :=
  match bytes with
  | b0 :: b1 :: b2 :: b3 :: rest =>
      (b0 + 256 * b1 + 65536 * b2 + 16777216 * b3) :: words rest
  | _ => []
  end.

Record state := { sa : Z; sb : Z; sc : Z; sd : Z }.

Definition init : state :=
  {| sa := 0x67452301; sb := 0xefcdab89; sc := 0x98badcfe; sd := 0x10325476 |}.

Definition step (M : list Z) (st : state) (i : nat) : state :=
  let '(a, b, c, d) := (sa st, sb st, sc st, sd st) in
  let zi := Z.of_nat i in
  let '(F, g) :=
    if zi <? 16 then (Z.lor (Z.land b c) (Z.land (lnot32 b) d), zi)
    else if zi <? 32 then (Z.lor (Z.land d b) (Z.land (lnot32 d) c), (5 * zi + 1) mod 16)
    else if zi <? 48 then (Z.lxor (Z.lxor b c) d, (3 * zi + 5) mod 16)
    else (Z.lxor c (Z.lor b (lnot32 d)), (7 * zi) mod 16) in
  let F := mask (F + a + nth i K 0 + nth (Z.to_nat g) M 0) in
  {| sa := d; sb := mask (b + rotl F (nth i S 0)); sc := b; sd := c |}.

Definition compress (st : state) (M : list Z) : state :=
  let r := foldl (step M) st (seq 0 64) in
  {| sa := mask (sa st + sa r); sb := mask (sb st + sb r);
     sc := mask (sc st + sc r); sd := mask (sd st + sd r) |}.

Fixpoint blocks (fuel : nat) (ws : list Z) (st : state) : state :=
  match fuel, ws with
  | Datatypes.S fuel', _ :: _ => blocks fuel' (drop 16 ws) (compress st (take 16 ws))
  | _, _ => st
  end.

Definition digest (msg : list Z) : list Z :=
  let ws := words (pad msg) in
  let st := blocks (length ws) ws init in
  (le_bytes 4 (sa st) ++ le_bytes 4 (sb st) ++ le_bytes 4 (sc st) ++ le_bytes 4 (sd st))%list.

Definition hex_digit (n : Z) : ascii :=
  if n <? 10 then ascii_of_nat (Z.to_nat (48 + n)) else ascii_of_nat (Z.to_nat (87 + n)).

Fixpoint hex_of_bytes (bytes : list Z) : string :=
  match bytes with
  | [] => EmptyString
  | b :: rest => String (hex_digit (b / 16)) (String (hex_digit (b mod 16)) (hex_of_bytes rest))
  end.

(** [hashlib.md5(s.encode()).hexdigest()] for an ASCII string. *)
Definition hexdigest (s : string) : string :=
  hex_of_bytes (digest (bytes_of_string s)).

End MD5.

(** ** Exceptions and the state-and-exception monad of the stateful code *)

Inductive Exn :=
| ValueError (message : string)
| RemoteError (message : string).

Module Run.

(** A computation over the state [St] that returns or raises; the
    state reached is kept in both cases, as files written before a
    [raise] stay written. *)
Definition M (St A : Type) : Type := St → (Exn + A) * St.

Definition ret {St A} (a : A) : M St A := λ s, (inr a, s).

Definition bind {St A B} (m : M St A) (k : A → M St B) : M St B :=
  λ s, match m s with
       | (inr a, s') => k a s'
       | (inl e, s') => (inl e, s')
       end.

Definition raise {St A} (e : Exn) : M St A := λ s, (inl e, s).

(** A call whose outcome is given: it returns or raises, and leaves
    the state alone. *)
Definition call {St A} (outcome : Exn + A) : M St A := λ s, (outcome, s).

Definition get {St} : M St St := λ s, (inr s, s).

Definition modify {St} (f : St → St) : M St unit := λ s, (inr tt, f s).

End Run.

#[global] Instance run_ret {St} : MRet (Run.M St) := @Run.ret St.
#[global] Instance run_bind {St} : MBind (Run.M St) :=
  λ A B k m, Run.bind m k.

(** ** json.dumps of the hash structure *)

Module Json.

Definition quote : ascii := ascii_of_nat 34.
Definition backslash : ascii := ascii_of_nat 92.

Definition hex_digit (n : nat) : ascii :=
  if (n <? 10)%nat then ascii_of_nat (48 + n) else ascii_of_nat (87 + n).

(** The escape of one character with [ensure_ascii=True]: everything
    outside [' '..'~'], the quote and the backslash are escaped. *)
Definition escape_char (c : ascii) : string :=
  let n := nat_of_ascii c in
  if (n =? 34)%nat then String backslash (String quote EmptyString)
  else if (n =? 92)%nat then String backslash (String backslash EmptyString)
  else if (n =? 10)%nat then String backslash "n"
  else if (n =? 13)%nat then String backslash "r"
  else if (n =? 9)%nat then String backslash "t"
  else if (n =? 8)%nat then String backslash "b"
  else if (n =? 12)%nat then String backslash "f"
  else if (n <? 32)%nat || (126 <? n)%nat then
    String backslash
      (String "u" (String "0" (String "0"
        (String (hex_digit (n / 16)) (String (hex_digit (n mod 16)) EmptyString)))))
  else String c EmptyString.

Fixpoint escape (s : string) : string :=
  match s with
  | EmptyString => EmptyString
  | String c rest => escape_char c ++ escape rest
  end.

Definition dumps_string (s : string) : string :=
  String quote (escape s ++ String quote EmptyString).

(** The elements of a list with the separator [','] *)
Fixpoint dumps_items (l : list string) : string :=
  match l with
  | [] => EmptyString
  | [x] => dumps_string x
  | x :: rest => dumps_string x ++ "," ++ dumps_items rest
  end.

Definition dumps_list (l : list string) : string :=
  "[" ++ dumps_items l ++ "]".

(** Reading one escaped character back from the front of a string:
    the character and the rest; [None] at a quote or at anything that
    is not an escape. *)
Definition hex_value (c : ascii) : option nat :=
  let n := nat_of_ascii c in
  if (48 <=? n)%nat && (n <=? 57)%nat then Some (n - 48)%nat
  else if (97 <=? n)%nat && (n <=? 102)%nat then Some (n - 87)%nat
  else None.

Definition unescape_prefix (s : string) : option (ascii * string) :=
  match s with
  | EmptyString => None
  | String c rest =>
      if Ascii.eqb c quote then None
      else if Ascii.eqb c backslash then
        match rest with
        | EmptyString => None
        | String d rest' =>
            if Ascii.eqb d quote then Some (quote, rest')
            else if Ascii.eqb d backslash then Some (backslash, rest')
            else if Ascii.eqb d "n" then Some (ascii_of_nat 10, rest')
            else if Ascii.eqb d "r" then Some (ascii_of_nat 13, rest')
            else if Ascii.eqb d "t" then Some (ascii_of_nat 9, rest')
            else if Ascii.eqb d "b" then Some (ascii_of_nat 8, rest')
            else if Ascii.eqb d "f" then Some (ascii_of_nat 12, rest')
            else if Ascii.eqb d "u" then
              match rest' with
              | String _ (String _ (String h (String l rest''))) =>
                  match hex_value h, hex_value l with
                  | Some a, Some b => Some (ascii_of_nat (16 * a + b), rest'')
                  | _, _ => None
                  end
              | _ => None
              end
            else None
        end
      else Some (c, rest)
  end.

End Json.

(** ** mapping/country_location_mapper.py (meta and google) *)

Module Mapper.
Import ProductLoader.

(** The two deployments differ in [_parse_active_countries] and in the
    hash structure; google reads [settings.TARGET_COUNTRIES]. *)
Inductive Deployment :=
| Meta
| Google (TARGET_COUNTRIES : gset string).

Record Region := {
  reg_code : option string;
  reg_name : option string
}.

Record Market := {
  mk_id : option string;
  mk_regions : list Region
}.

(** A record of the locations export. *)
Record LocationRecord := {
  lr_id : string;                    (* record.get('id', '') *)
  lr_name : option string;
  lr_countryCode : option string;    (* address.countryCode *)
  lr_isActive : bool                 (* record.get('isActive', True) *)
}.

Record Location := {
  loc_name : option string;
  loc_country_code : option string;
  loc_is_active : bool
}.

(** What the remote API answers to the three queries of a mapping
    build. *)
Record ShopifySync := {
  get_markets_and_countries : Exn + list Market;
  get_locations : Exn + list LocationRecord;
  get_location_country_relationships : Exn + gmap string (list string)
}.

Record Mapping := {
  active_countries : gmap string CountryInfo;
  location_country_map : gmap string LocationEntry;
  created_at : Z;
  mapping_hash : option string
}.

(** cache/mapping_comparison.json ('hash') and
    cache/country-mapping.json. *)
Record files := {
  comparison_file : option string;
  cached_mapping : option Mapping
}.

Section Mapper.

Variable deployment : Deployment.
Variable SMART_MAPPING_ENABLED : bool.

Definition in_target (country_code : string) : bool :=
  match deployment with
  | Meta => true
  | Google TARGET_COUNTRIES => bool_decide (country_code ∈ TARGET_COUNTRIES)
  end.

Definition parse_region (market_id : option string)
    (active_countries : gmap string CountryInfo) (region : Region)
    : gmap string CountryInfo :=
  match reg_code region, reg_name region with
  | Some country_code, Some country_name =>
      if PyStr.truthy country_code && PyStr.truthy country_name && in_target country_code
      then <[country_code := {| ci_name := country_name; ci_market_id := market_id |}]>
             active_countries
      else active_countries
  | _, _ => active_countries
  end.

Definition _parse_active_countries (markets : list Market) : gmap string CountryInfo :=
  foldl (λ active_countries market,
           foldl (parse_region (mk_id market)) active_countries (mk_regions market))
        ∅ markets.

Definition _parse_locations_from_jsonl (records : list LocationRecord)
    : gmap string Location :=
  foldl (λ locations record,
           if String.prefix "gid://shopify/Location/" (lr_id record)
           then <[PyStr.last_part slash (lr_id record) :=
                    {| loc_name := lr_name record;
                       loc_country_code := lr_countryCode record;
                       loc_is_active := lr_isActive record |}]> locations
           else locations)
        ∅ records.

(** The entry of one location in [_create_country_mapping]. *)
Definition map_location (delivery_relationships : gmap string (list string))
    (active_countries : gmap string CountryInfo)
    (location_id : string) (location : Location) : option LocationEntry :=
  if loc_is_active location then
    let served_countries :=
      match delivery_relationships !! location_id with
      | Some countries =>
          filter (λ country, is_Some (active_countries !! country)) countries
      | None => []
      end in
    match served_countries with
    | _ :: _ => Some {| le_name := loc_name location; le_countries := served_countries |}
    | [] =>
        match loc_country_code location with
        | Some location_country =>
            if bool_decide (is_Some (active_countries !! location_country))
            then Some {| le_name := loc_name location;
                         le_countries := [location_country] |}
            else None
        | None => None
        end
    end
  else None.

Definition _create_country_mapping (shopify_sync : ShopifySync)
    (locations : gmap string Location) (active_countries : gmap string CountryInfo)
    : gmap string LocationEntry :=
  let delivery_relationships :=
    match get_location_country_relationships shopify_sync with
    | inr relationships => relationships
    | inl _ => ∅
    end in
  map_imap (map_location delivery_relationships active_countries) locations.

(** [sorted(d.keys())]: the keys in the order of their code points. *)
Definition sorted_keys {A} (d : gmap string A) : list string :=
  merge_sort String.le (map_to_list d).*1.

(** [json.dumps(hash_structure, sort_keys=True, separators=(',', ':'))];
    the keys are written here in their sorted order. *)
Definition hash_string (active_countries : gmap string CountryInfo)
    (location_country_map : gmap string LocationEntry) : string :=
  "{" ++ Json.dumps_string "countries" ++ ":" ++
         Json.dumps_list (sorted_keys active_countries) ++
  "," ++ Json.dumps_string "locations" ++ ":" ++
         Json.dumps_list (sorted_keys location_country_map) ++
  "," ++
  match deployment with
  | Meta => Json.dumps_string "method" ++ ":" ++ Json.dumps_string "bulk_operations"
  | Google TARGET_COUNTRIES =>
      Json.dumps_string "target_countries" ++ ":" ++
      Json.dumps_list (merge_sort String.le (elements TARGET_COUNTRIES))
  end ++ "}".

Definition _generate_mapping_hash (active_countries : gmap string CountryInfo)
    (location_country_map : gmap string LocationEntry) : string :=
  MD5.hexdigest (hash_string active_countries location_country_map).

Definition _build_fresh_mapping (shopify_sync : ShopifySync) (now : Z)
    : Run.M files Mapping :=
  (markets ← Run.call (get_markets_and_countries shopify_sync);
   let active_countries := _parse_active_countries markets in
   records ← Run.call (get_locations shopify_sync);
   let locations_map := _parse_locations_from_jsonl records in
   let country_location_map :=
     _create_country_mapping shopify_sync locations_map active_countries in
   Run.ret {| active_countries := active_countries;
              location_country_map := country_location_map;
              created_at := now;
              mapping_hash :=
                Some (_generate_mapping_hash active_countries country_location_map) |}).

Definition _load_previous_mapping_hash : Run.M files (option string) :=
  (f ← Run.get; Run.ret (comparison_file f)).

Definition _save_mapping_hash (mapping_hash : option string) : Run.M files unit :=
  Run.modify (λ f, {| comparison_file := mapping_hash;
                      cached_mapping := cached_mapping f |}).

Definition _get_cached_mapping (shopify_sync : ShopifySync) (now : Z)
    : Run.M files Mapping :=
  (f ← Run.get;
   match cached_mapping f with
   | Some mapping => Run.ret mapping
   | None => _build_fresh_mapping shopify_sync now
   end).

Definition get_mapping_with_change_detection (shopify_sync : option ShopifySync)
    (now : Z) : Run.M files (Mapping * bool * string) :=
  match shopify_sync with
  | None => Run.raise (ValueError "ShopifySync instance required for mapping operations")
  | Some shopify_sync =>
      if negb SMART_MAPPING_ENABLED then
        (mapping ← _get_cached_mapping shopify_sync now;
         Run.ret (mapping, false, "Smart mapping disabled"))
      else
        (fresh_mapping ← _build_fresh_mapping shopify_sync now;
         previous_hash ← _load_previous_mapping_hash;
         let current_hash := mapping_hash fresh_mapping in
         let '(reason, has_changed) :=
           if negb (PyStr.truthy_opt previous_hash)
           then ("No previous mapping found - first run", true)
           else if negb (bool_decide (previous_hash = current_hash))
           then ("Mapping structure changed - hash mismatch", true)
           else ("Mapping unchanged - hash match", false) in
         _ ← _save_mapping_hash current_hash;
         Run.ret (fresh_mapping, has_changed, reason))
  end.

Definition clear_mapping_hash : Run.M files unit :=
  Run.modify (λ f, {| comparison_file := None; cached_mapping := cached_mapping f |}).

End Mapper.

End Mapper.

(** ** orchestrator/sync_orchestrator.py (meta) *)

Module Orchestrator.
Import ProductLoader.

(** Everything a run reads and writes on disk.  The summary log and the
    cleanup of temporary files at the end of a run touch none of it and
    are left out. *)
Record World := {
  state : StateManager.files;
  mapping : Mapper.files;
  feeds : CSVExporter.OutputDir
}.

(** What the surroundings of one run answer: the configuration check,
    the remote API, the bulk export for a given [since] (it raises,
    returns no file, or returns the lines of the downloaded file), the
    upload of the created files, and the clock. *)
Record Env := {
  config_errors : list string;
  shopify_sync : Mapper.ShopifySync;
  bulk_export : option Z → Exn + option (list Line);
  upload : list string → Exn + nat;
  GOOGLE_DRIVE_FOLDER_ID : string;
  now : Z
}.

Inductive SyncType := FULL | INCREMENTAL.

(** Where a run that did not raise left the function: at the early
    return for "no data", or after the files were processed. *)
Inductive Outcome :=
| NoData
| Processed (sync_type : SyncType) (created_files : list string).

Definition zoom_mapping {A} (m : Run.M Mapper.files A) : Run.M World A :=
  λ w, let '(r, f) := m (mapping w) in
       (r, {| state := state w; mapping := f; feeds := feeds w |}).

Definition on_state (f : StateManager.files → StateManager.files) : Run.M World unit :=
  Run.modify (λ w, {| state := f (state w); mapping := mapping w; feeds := feeds w |}).

Definition on_feeds {A} (f : CSVExporter.OutputDir → CSVExporter.OutputDir * A)
    : Run.M World A :=
  λ w, let '(dir, a) := f (feeds w) in
       (inr a, {| state := state w; mapping := mapping w; feeds := dir |}).

Section Orchestrator.

Variable SMART_MAPPING_ENABLED : bool.
Variable ENABLE_DATA_VALIDATION : bool.
Variable env : Env.

Definition _validate_configuration : Run.M World unit :=
  match config_errors env with
  | [] => Run.ret tt
  | _ :: _ => Run.raise (ValueError "Configuration validation failed")
  end.

Definition _detect_mapping_changes : Run.M World (Mapper.Mapping * bool * string) :=
  zoom_mapping
    (Mapper.get_mapping_with_change_detection Mapper.Meta SMART_MAPPING_ENABLED
       (Some (shopify_sync env)) (now env)).

Definition _determine_smart_sync_strategy (mapping_changed : bool)
    (change_reason : string) : Run.M World (SyncType * option Z) :=
  w ← Run.get;
  let last_sync := StateManager.load_sync_state (state w) in
  if mapping_changed then Run.ret (FULL, None)
  else match last_sync with
       | None => Run.ret (FULL, None)
       | Some _ => Run.ret (INCREMENTAL, last_sync)
       end.

Definition _get_shopify_data (since_timestamp : option Z)
    (mapping_data : Mapper.Mapping) : Run.M World (list CountryVariant) :=
  jsonl_file ← Run.call (bulk_export env since_timestamp);
  match jsonl_file with
  | None => Run.ret []
  | Some lines =>
      Run.ret (load_products_from_bulk_jsonl
                 (Mapper.active_countries mapping_data)
                 (Mapper.location_country_map mapping_data) (Some lines))
  end.

Definition _process_variants (sync_type : SyncType) (variants : list CountryVariant)
    : Run.M World (list string) :=
  match sync_type with
  | FULL =>
      created_files ←
        on_feeds (CSVExporter.create_country_feeds_full ENABLE_DATA_VALIDATION variants);
      _ ← on_state StateManager.reset_variant_states;
      _ ← on_state (StateManager.update_variant_states (now env) variants);
      Run.ret created_files
  | INCREMENTAL =>
      w ← Run.get;
      let '(new_variants, changed_variants) :=
        StateManager.detect_stock_changes (state w) variants in
      match new_variants, changed_variants with
      | [], [] => Run.ret []
      | _, _ =>
          created_files ←
            on_feeds (CSVExporter.update_country_feeds_incremental
                        ENABLE_DATA_VALIDATION new_variants changed_variants);
          _ ← on_state (StateManager.update_variant_states (now env) variants);
          Run.ret created_files
      end
  end.

(** [_upload_files] of the explicit full sync: skipped without files
    or without a Drive folder; a failed upload is logged only. *)
Definition _upload_files (created_files : list string) : Run.M World unit :=
  match created_files with
  | [] => Run.ret tt
  | _ :: _ =>
      if negb (PyStr.truthy (GOOGLE_DRIVE_FOLDER_ID env)) then Run.ret tt
      else match upload env created_files with
           | inr _ => Run.ret tt
           | inl _ => Run.ret tt
           end
  end.

Definition _run_smart_sync_with_detection : Run.M World Outcome :=
  let sync_timestamp := now env - 5 in
  _ ← _validate_configuration;
  '(mapping_data, mapping_changed, change_reason) ← _detect_mapping_changes;
  '(sync_type, since_timestamp) ←
    _determine_smart_sync_strategy mapping_changed change_reason;
  variants ← _get_shopify_data since_timestamp mapping_data;
  match variants with
  | [] =>
      _ ← on_state (StateManager.save_sync_state sync_timestamp);
      Run.ret NoData
  | _ :: _ =>
      created_files ← _process_variants sync_type variants;
      _ ← Run.call (upload env created_files);
      _ ← on_state (StateManager.save_sync_state sync_timestamp);
      Run.ret (Processed sync_type created_files)
  end.

Definition _run_full_sync : Run.M World Outcome :=
  let sync_timestamp := now env - 5 in
  _ ← _validate_configuration;
  '(mapping_data, _, _) ←
    zoom_mapping
      (Mapper.get_mapping_with_change_detection Mapper.Meta SMART_MAPPING_ENABLED
         (Some (shopify_sync env)) (now env));
  variants ← _get_shopify_data None mapping_data;
  match variants with
  | [] => Run.ret NoData
  | _ :: _ =>
      created_files ← _process_variants FULL variants;
      _ ← _upload_files created_files;
      _ ← on_state (StateManager.save_sync_state sync_timestamp);
      Run.ret (Processed FULL created_files)
  end.

Definition run_smart : Run.M World Outcome := _run_smart_sync_with_detection.

Definition run_full : Run.M World Outcome := _run_full_sync.

Definition run_incremental : Run.M World Outcome :=
  w ← Run.get;
  match StateManager.load_sync_state (state w) with
  | None => run_smart
  | Some _ => _run_smart_sync_with_detection
  end.

End Orchestrator.

End Orchestrator.

(** What the specification says of the projection, over the same data. *)
Module ProjectionSpec.
Import ProductLoader.

Section Spec.

Variable active_countries : gmap string CountryInfo.
Variable location_country_map : gmap string LocationEntry.

(** The served countries of the known, mapped location of a fact; no
    country when the fact has no location or the location is unknown. *)
Definition served_countries (level : BulkRecord) : list string :=
  let location_gid := default EmptyString (r_location level) in
  if PyStr.truthy location_gid then
    match location_country_map !! PyStr.last_part slash location_gid with
    | Some entry => le_countries entry
    | None => []
    end
  else [].

Definition available (level : BulkRecord) : Z :=
  available_of (default [] (r_quantities level)).

(** The facts of a variant whose location serves the country. *)
Definition serving_facts (levels : list BulkRecord) (country_code : string)
    : list BulkRecord :=
  filter (λ level, country_code ∈ served_countries level) levels.

(** The quantity of the specification: the sum of the available
    quantities of the serving facts. *)
Definition summed_quantity (levels : list BulkRecord) (country_code : string) : Z :=
  foldr (λ level acc, available level + acc) 0 (serving_facts levels country_code).

(** The quantity the code attributes: a fact counts only when its
    available quantity is positive, and once for each time the country
    is listed among the served countries of its location. *)
Definition positive_credit (level : BulkRecord) (country_code : string) : Z :=
  if 0 <? available level
  then available level *
       Z.of_nat (length (filter (λ c, c = country_code) (served_countries level)))
  else 0.

Definition positive_quantity (levels : list BulkRecord) (country_code : string) : Z :=
  foldr (λ level acc, positive_credit level country_code + acc) 0 levels.

Definition facts_of (g : Graph) (variant_gid : string) : list BulkRecord :=
  default [] (inventory_levels g !! variant_gid).

(** The row of a variant for a country, with the quantity given. *)
Definition row_for (variant_gid : string) (variant_data : BulkRecord)
    (country_code : string) (quantity : Z) : CountryVariant :=
  let numeric_variant_id := PyStr.last_part slash variant_gid in
  {| cv_id := Some (numeric_variant_id ++ "-" ++ country_code)%string;
     cv_shopify_variant_id := numeric_variant_id;
     cv_country_code := Some country_code;
     cv_country_name :=
       match active_countries !! country_code with
       | Some info => ci_name info
       | None => EmptyString
       end;
     cv_inventory_quantity := Some quantity;
     cv_sku := default EmptyString (r_sku variant_data);
     cv_product_id :=
       Some match r_product variant_data with
            | Some p => if PyStr.truthy_opt (pd_id p)
                        then PyStr.last_part slash (default EmptyString (pd_id p))
                        else EmptyString
            | None => EmptyString
            end |}.

(** The rows of the output that belong to a (variant, country) pair. *)
Definition emitted (g : Graph) (variant_gid country_code : string) : Prop :=
  ∃ variant_data quantity,
    variants g !! variant_gid = Some variant_data ∧
    row_for variant_gid variant_data country_code quantity
      ∈ _build_country_variants_from_bulk active_countries location_country_map g.

(** C1 as the specification states it: a row exists only for an active
    country that received a non-zero quantity from some variant, and
    only for a variant with a serving location in that country. *)
Definition rows_only_where_served (g : Graph) : Prop :=
  ∀ variant_gid country_code, emitted g variant_gid country_code →
    is_Some (active_countries !! country_code) ∧
    (∃ parent_id, summed_quantity (facts_of g parent_id) country_code ≠ 0) ∧
    serving_facts (facts_of g variant_gid) country_code ≠ [].

(** C5 as the specification states it: the quantity of an emitted row
    is the sum over the serving facts. *)
Definition rows_carry_summed_quantity (g : Graph) : Prop :=
  ∀ variant_gid variant_data country_code quantity,
    variants g !! variant_gid = Some variant_data →
    row_for variant_gid variant_data country_code quantity
      ∈ _build_country_variants_from_bulk active_countries location_country_map g →
    quantity = summed_quantity (facts_of g variant_gid) country_code.

(** Country codes without a dash, as ISO codes are: the code recovers
    the country from the key by [key.split('-')[-1]]. *)
Definition dash_free_codes : Prop :=
  ∀ country_code, is_Some (active_countries !! country_code) →
    PyStr.has_char dash country_code = false.

(** Every key of [country_inventory] is the key of a variant id and an
    active country. *)
Definition keys_of_pairs (country_inventory : gmap string Z) : Prop :=
  ∀ key quantity, country_inventory !! key = Some quantity →
    ∃ parent_id country_code,
      key = inventory_key parent_id country_code ∧
      is_Some (active_countries !! country_code).

End Spec.

End ProjectionSpec.

(** What the specification says of one variant against the persisted
    states: "new" if its composite key has no persisted state, "changed"
    if the persisted availability differs from the current one,
    "unchanged" otherwise. *)
Module DiffSpec.
Import StateManager.

Definition persisted (f : files) (variant : CountryVariant) : option VariantState :=
  match cv_id variant with
  | Some variant_id => _load_variant_states f !! variant_id
  | None => None
  end.

Definition is_new (f : files) (variant : CountryVariant) : Prop :=
  persisted f variant = None.

Definition is_changed (f : files) (variant : CountryVariant) : Prop :=
  ∃ st, persisted f variant = Some st ∧ stock_status_of st ≠ current_status variant.

Definition is_unchanged (f : files) (variant : CountryVariant) : Prop :=
  ∃ st, persisted f variant = Some st ∧ stock_status_of st = current_status variant.

#[global] Instance is_new_dec f v : Decision (is_new f v).
Proof. unfold is_new. apply _. Defined.

#[global] Instance is_changed_dec f v : Decision (is_changed f v).
Proof.
  unfold is_changed. destruct (persisted f v) as [st|].
  - destruct (decide (stock_status_of st = current_status v)) as [e|n].
    + right. intros (st' & [= <-] & Hne). done.
    + left. eauto.
  - right. intros (st' & [=] & _).
Defined.

#[global] Instance is_unchanged_dec f v : Decision (is_unchanged f v).
Proof.
  unfold is_unchanged. destruct (persisted f v) as [st|].
  - destruct (decide (stock_status_of st = current_status v)) as [e|n].
    + left. eauto.
    + right. intros (st' & [= <-] & He). done.
  - right. intros (st' & [=] & _).
Defined.

(** The claim of the specification on one input: membership in the two
    returned lists is exactly the specification's "new" and "changed". *)
Definition diff_classifies (f : files) (current_variants : list CountryVariant) : Prop :=
  ∀ variant, variant ∈ current_variants →
    (variant ∈ (detect_stock_changes f current_variants).1 ↔ is_new f variant) ∧
    (variant ∈ (detect_stock_changes f current_variants).2 ↔ is_changed f variant).

(** The input lists on which the dictionary [variant_lookup] loses
    nothing: every variant has a non-empty id and no id occurs twice. *)
Definition keyed (current_variants : list CountryVariant) : Prop :=
  (∀ variant, variant ∈ current_variants →
     ∃ variant_id, cv_id variant = Some variant_id ∧ variant_id ≠ EmptyString) ∧
  NoDup (cv_id <$> current_variants).

(** The entry of [variant_lookup] a variant is stored as. *)
Definition lookup_entry (variant_id : string) (variant : CountryVariant)
    : string * (CountryVariant * stock_status) :=
  (variant_id, (variant, current_status variant)).

Definition entry_of (variant : CountryVariant) : string * (CountryVariant * stock_status) :=
  lookup_entry (default EmptyString (cv_id variant)) variant.

End DiffSpec.

(** What the specification says of the feed files, over the same data. *)
Module FeedSpec.
Import CSVExporter.



End FeedSpec.

(** What the specification says of the structural fingerprint. *)
Module FingerprintSpec.
Import ProductLoader Mapper.

(** C3 as the specification states it, for two mappings and the
    deployments they were built under: the fingerprints differ exactly
    when the country codes or the location ids differ. *)
Definition differs_iff_key_sets_differ (d1 d2 : Deployment)
    (ac1 ac2 : gmap string CountryInfo) (lm1 lm2 : gmap string LocationEntry) : Prop :=
  _generate_mapping_hash d1 ac1 lm1 ≠ _generate_mapping_hash d2 ac2 lm2 ↔
  dom ac1 ≠ dom ac2 ∨ dom lm1 ≠ dom lm2.

End FingerprintSpec.

(** What the specification says of the checkpoint, over the runs. *)
Module CheckpointSpec.
Import Orchestrator.

(** The persisted checkpoint: 'last_successful_run' of sync_state.json. *)
Definition checkpoint (w : World) : option Z := StateManager.sync_state (state w).

(** A computation that never touches the checkpoint, whether it
    returns or raises. *)
Definition keeps_checkpoint {A} (m : Run.M World A) : Prop :=
  ∀ w, checkpoint (m w).2 = checkpoint w.

(** A computation that leaves the checkpoint alone when it raises and,
    when it returns, has left it alone or has set it to [ts] and
    returns a value of [P]. *)
Definition commits_on_return {A} (ts : Z) (P : A → Prop) (m : Run.M World A) : Prop :=
  ∀ w, match m w with
       | (inl _, w') => checkpoint w' = checkpoint w
       | (inr a, w') =>
           checkpoint w' = checkpoint w ∨ (checkpoint w' = Some ts ∧ P a)
       end.

Definition smart_exit (o : Outcome) : Prop :=
  o = NoData ∨ ∃ sync_type created_files, o = Processed sync_type created_files.

Definition full_exit (o : Outcome) : Prop :=
  ∃ created_files, o = Processed FULL created_files.

End CheckpointSpec.

(** Concrete inputs used to evaluate the model. *)
Module Samples.
Import StateManager.

Definition row (variant_id country : string) (qty : Z) (product : string)
    : CountryVariant :=
  {| cv_id := Some (variant_id ++ "-" ++ country)%string;
     cv_shopify_variant_id := variant_id;
     cv_country_code := Some country;
     cv_country_name := country;
     cv_inventory_quantity := Some qty;
     cv_sku := "TEE-M";
     cv_product_id := Some product |}.

(** variant_states.json holding one key, last seen out of stock. *)
Definition one_out_of_stock : files :=
  {| sync_state := None;
     variant_states :=
       Some {[ "1-US" := {| stock_status_of := out_of_stock; last_updated := 0 |} ]} |}.

(** An export with two variants of one product; only the first has an
    inventory fact. *)
Definition tee : ProductLoader.ProductData :=
  {| ProductLoader.pd_id := Some "gid://shopify/Product/9";
     ProductLoader.pd_title := "Tee";
     ProductLoader.pd_handle := "tee" |}.

Definition variant_line (gid sku : string) : ProductLoader.Line :=
  ProductLoader.Json
    {| ProductLoader.r_id := gid;
       ProductLoader.r_parentId := "";
       ProductLoader.r_product := Some tee;
       ProductLoader.r_sku := Some sku;
       ProductLoader.r_location := None;
       ProductLoader.r_quantities := None |}.

Definition level_record (parent location_gid : string) (qty : Z)
    : ProductLoader.BulkRecord :=
  {| ProductLoader.r_id := "";
     ProductLoader.r_parentId := parent;
     ProductLoader.r_product := None;
     ProductLoader.r_sku := None;
     ProductLoader.r_location := Some location_gid;
     ProductLoader.r_quantities :=
       Some [ {| ProductLoader.q_name := Some "available";
                 ProductLoader.q_quantity := Some qty |} ] |}.

Definition level_line (parent location_gid : string) (qty : Z) : ProductLoader.Line :=
  ProductLoader.Json (level_record parent location_gid qty).

Definition V1 : string := "gid://shopify/ProductVariant/1".
Definition V2 : string := "gid://shopify/ProductVariant/2".
Definition L10 : string := "gid://shopify/Location/10".
Definition L11 : string := "gid://shopify/Location/11".

Definition only_US : gmap string ProductLoader.CountryInfo :=
  {[ "US" := {| ProductLoader.ci_name := "United States";
                ProductLoader.ci_market_id := Some "gid://shopify/Market/1" |} ]}.

Definition two_US_locations : gmap string ProductLoader.LocationEntry :=
  {[ "10" := {| ProductLoader.le_name := Some "East";
                ProductLoader.le_countries := ["US"] |};
     "11" := {| ProductLoader.le_name := Some "West";
                ProductLoader.le_countries := ["US"] |} ]}.

Definition graph_of (lines : list ProductLoader.Line) : ProductLoader.Graph :=
  match ProductLoader.parse_lines lines ProductLoader.empty_graph with
  | inr g => g
  | inl _ => ProductLoader.empty_graph
  end.

(** V1 has 5 available at location 10; V2 has no inventory fact. *)
Definition one_stocked_of_two : list ProductLoader.Line :=
  [ variant_line V1 "TEE-M"; level_line V1 L10 5; variant_line V2 "TEE-L" ].

(** V1 has 5 available at location 10 and is oversold by 7 at
    location 11. *)
Definition oversold_at_second : list ProductLoader.Line :=
  [ variant_line V1 "TEE-M"; level_line V1 L10 5; level_line V1 L11 (-7) ].

Definition V3 : string := "gid://shopify/ProductVariant/3".
Definition V4 : string := "gid://shopify/ProductVariant/4".

(** Nine well-formed lines, and the same stream with a line that is not
    UTF-8 at position 3. *)
Definition nine_lines : list ProductLoader.Line :=
  [ variant_line V1 "TEE-M"; level_line V1 L10 5;
    variant_line V2 "TEE-L"; level_line V2 L11 3;
    variant_line V3 "TEE-S"; level_line V3 L10 0;
    variant_line V4 "CAP-M"; level_line V4 L10 2; level_line V1 L11 1 ].

Definition ten_lines_third_undecodable : list ProductLoader.Line :=
  [ variant_line V1 "TEE-M"; level_line V1 L10 5; ProductLoader.Undecodable;
    variant_line V2 "TEE-L"; level_line V2 L11 3;
    variant_line V3 "TEE-S"; level_line V3 L10 0;
    variant_line V4 "CAP-M"; level_line V4 L10 2; level_line V1 L11 1 ].

Definition ten_lines_third_not_json : list ProductLoader.Line :=
  [ variant_line V1 "TEE-M"; level_line V1 L10 5; ProductLoader.NotJson;
    variant_line V2 "TEE-L"; level_line V2 L11 3;
    variant_line V3 "TEE-S"; level_line V3 L10 0;
    variant_line V4 "CAP-M"; level_line V4 L10 2; level_line V1 L11 1 ].

(** The record of a variant line. *)
Definition variant_record (gid sku : string) : ProductLoader.BulkRecord :=
  match variant_line gid sku with
  | ProductLoader.Json record => record
  | _ => level_record "" "" 0
  end.

End Samples.

(** ** Further code of the modelled files, and what is stated of it *)

(** product_loader.py: [extract_size_from_sku] *)
Module SkuSize.

(** [a or b] on two optional strings. *)
Definition py_or (a b : option string) : option string :=
  if PyStr.truthy_opt a then a else b.

Definition extract_size_from_sku (sku original_sku : option string) : string :=
  let sku_to_parse := py_or original_sku sku in
  match sku_to_parse with
  | None => "Unknown"
  | Some s =>
      if negb (PyStr.truthy s) || negb (PyStr.has_char dash s) then "Unknown"
      else match PyStr.split dash s with
           | _ :: size :: _ => size
           | _ => "Unknown"
           end
  end.

End SkuSize.

(** The record graph against the stream it was built from. *)
Module GraphSpec.
Import ProductLoader.

(** The records of the lines that decode to one. *)
Definition records_of (lines : list Line) : list BulkRecord :=
  omap (λ line, match line with Json record => Some record | _ => None end) lines.

(** A child record that carries 'location' and 'quantities'. *)
Definition is_level_record (record : BulkRecord) : bool :=
  PyStr.truthy (r_parentId record) &&
  bool_decide (is_Some (r_location record)) &&
  bool_decide (is_Some (r_quantities record)).

(** The inventory level records of a parent, in the order of the
    stream. *)
Definition levels_of (parent_id : string) (lines : list Line) : list BulkRecord :=
  filter (λ record, is_level_record record = true ∧ r_parentId record = parent_id)
         (records_of lines).

(** Every entry of the three dictionaries sits under the id it
    carries. *)
Definition keyed_by_id (g : Graph) : Prop :=
  (∀ k record, variants g !! k = Some record →
     r_id record = k ∧ PyStr.contains "ProductVariant" k = true) ∧
  (∀ k entry, products g !! k = Some entry →
     match entry with
     | Standalone record =>
         r_id record = k ∧ PyStr.contains "Product" k = true ∧
         PyStr.contains "ProductVariant" k = false
     | Embedded product_data => pd_id product_data = Some k
     end) ∧
  (∀ k levels, inventory_levels g !! k = Some levels →
     levels ≠ [] ∧ ∀ level, level ∈ levels → r_parentId level = k).

(** The product embedded in every top-level variant is in the products
    table. *)
Definition products_revealed (g : Graph) : Prop :=
  ∀ k record product_data product_id,
    variants g !! k = Some record → PyStr.truthy (r_parentId record) = false →
    r_product record = Some product_data → pd_id product_data = Some product_id →
    is_Some (products g !! product_id).

End GraphSpec.

(** The persisted states against the list that was committed. *)
Module CommitSpec.
Import StateManager.

(** The last variant of the list that carries the id. *)
Definition last_with_id (variant_id : string) (variants : list CountryVariant)
    : option CountryVariant :=
  foldl (λ found variant,
           if bool_decide (cv_id variant = Some variant_id) && PyStr.truthy variant_id
           then Some variant else found)
        None variants.

Definition state_of (timestamp : Z) (variant : CountryVariant) : VariantState :=
  {| stock_status_of := current_status variant; last_updated := timestamp |}.

End CommitSpec.

(** * Properties *)

Section PyStrProperties.
Import PyStr.

Lemma split_nonempty sep s : split sep s ≠ [].
Proof.
  destruct s as [|c s]; simpl; [done|].
  destruct (Ascii.eqb c sep); [done|]. by destruct (split sep s).
Qed.

Lemma split_no_sep sep s : has_char sep s = false → split sep s = [s].
Proof.
  induction s as [|c s IH]; simpl; [done|].
  intros [Hc Hs]%orb_false_iff. rewrite Hc, (IH Hs). done.
Qed.

Lemma split_app_sep sep v c :
  split sep (v ++ String sep c) = (split sep v ++ split sep c)%list.
Proof.
  induction v as [|a v IH]; simpl.
  - by rewrite Ascii.eqb_refl.
  - destruct (Ascii.eqb a sep); [by rewrite IH|].
    rewrite IH. pose proof (split_nonempty sep v).
    by destruct (split sep v).
Qed.

Lemma last_part_app_sep sep v c :
  has_char sep c = false → last_part sep (v ++ String sep c) = c.
Proof.
  intros Hc. unfold last_part. rewrite split_app_sep, (split_no_sep _ _ Hc).
  apply last_last.
Qed.

Lemma rsplit1_no_sep sep s : has_char sep s = false → rsplit1 sep s = None.
Proof.
  induction s as [|c s IH]; simpl; [done|].
  intros [Hc Hs]%orb_false_iff. by rewrite (IH Hs), Hc.
Qed.

Lemma rsplit1_app_sep sep v c :
  has_char sep c = false → rsplit1 sep (v ++ String sep c) = Some (v, c).
Proof.
  intros Hc. induction v as [|a v IH]; simpl.
  - by rewrite (rsplit1_no_sep _ _ Hc), Ascii.eqb_refl.
  - by rewrite IH.
Qed.

End PyStrProperties.

Section StateManagerProperties.
Import StateManager DiffSpec.

Lemma truthy_ne s : s ≠ EmptyString → PyStr.truthy s = true.
Proof. by destruct s. Qed.

Lemma lookup_step_keyed m v i :
  cv_id v = Some i → i ≠ EmptyString →
  lookup_step m v = <[i := (v, current_status v)]> m.
Proof. intros Hid Hne. unfold lookup_step. by rewrite Hid, truthy_ne. Qed.

(** With distinct non-empty ids the dictionary holds one entry per
    variant of the list. *)
Lemma foldl_lookup_step_keyed vs : ∀ m,
  keyed vs →
  (∀ v i, v ∈ vs → cv_id v = Some i → m !! i = None) →
  map_to_list (foldl lookup_step m vs) ≡ₚ map_to_list m ++ (entry_of <$> vs).
Proof.
  induction vs as [|v vs IH]; intros m [Hk Hnd] Hfresh; simpl.
  - by rewrite app_nil_r.
  - destruct (Hk v) as (i & Hi & Hne); [left|].
    rewrite fmap_cons in Hnd. apply NoDup_cons in Hnd as [Hnotin Hnd].
    rewrite (lookup_step_keyed _ _ i) by done.
    rewrite IH.
    + rewrite map_to_list_insert by (eapply Hfresh; [left|done]).
      unfold entry_of at 2. rewrite Hi. simpl.
      by rewrite <- Permutation_middle.
    + split; [|done]. intros w Hw. apply Hk. by right.
    + intros w j Hw Hj. rewrite lookup_insert_ne.
      * eapply Hfresh; [by right|done].
      * intros ->. apply Hnotin. rewrite Hi, <- Hj. by apply list_elem_of_fmap_2.
Qed.

Lemma variant_lookup_keyed vs :
  keyed vs → map_to_list (build_variant_lookup vs) ≡ₚ entry_of <$> vs.
Proof.
  intros Hk. unfold build_variant_lookup.
  rewrite foldl_lookup_step_keyed; [|done|intros; apply lookup_empty].
  by rewrite map_to_list_empty.
Qed.

Lemma filter_fmap_entries (P : string * (CountryVariant * stock_status) → Prop)
    `{!∀ e, Decision (P e)} (vs : list CountryVariant) :
  (λ e, e.2.1) <$> filter P (entry_of <$> vs) = filter (λ v, P (entry_of v)) vs.
Proof.
  induction vs as [|v vs IH]; [done|].
  rewrite fmap_cons, !filter_cons. destruct (decide (P (entry_of v))).
  - rewrite fmap_cons, IH. done.
  - done.
Qed.

Lemma filter_iff_elem {A} (P Q : A → Prop) `{!∀ x, Decision (P x)}
    `{!∀ x, Decision (Q x)} (l : list A) :
  (∀ x, x ∈ l → P x ↔ Q x) → filter P l = filter Q l.
Proof.
  induction l as [|x l IH]; intros HPQ; [done|].
  rewrite !filter_cons.
  destruct (decide (P x)) as [p|np], (decide (Q x)) as [q|nq].
  - f_equal. apply IH. intros y Hy. apply HPQ. by right.
  - exfalso. apply nq, HPQ; [left|done].
  - exfalso. apply np, HPQ; [left|done].
  - apply IH. intros y Hy. apply HPQ. by right.
Qed.

Lemma is_new_entry_spec f v :
  is_Some (cv_id v) →
  is_new_entry (_load_variant_states f) (entry_of v) = true ↔ is_new f v.
Proof.
  intros [i Hi]. unfold is_new_entry, is_new, persisted, entry_of. rewrite Hi. simpl.
  destruct (_ !! i); split; done.
Qed.

Lemma is_changed_entry_spec f v :
  is_Some (cv_id v) →
  is_changed_entry (_load_variant_states f) (entry_of v) = true ↔ is_changed f v.
Proof.
  intros [i Hi]. unfold is_changed_entry, is_changed, persisted, entry_of. rewrite Hi. simpl.
  destruct (_ !! i) as [st|]; simpl.
  - rewrite negb_true_iff, bool_decide_eq_false. split; [eauto|].
    by intros (st' & [= <-] & Hne).
  - split; [done|]. by intros (st' & [=] & _).
Qed.

Lemma detect_new_keyed f vs :
  keyed vs → (detect_stock_changes f vs).1 ≡ₚ filter (is_new f) vs.
Proof.
  intros Hk. destruct vs as [|v0 vs0]; [done|].
  set (vs := v0 :: vs0) in *.
  change ((detect_stock_changes f vs).1) with
    ((λ e : string * (CountryVariant * stock_status), e.2.1) <$>
       filter (λ e, is_new_entry (_load_variant_states f) e = true)
         (map_to_list (build_variant_lookup vs))).
  rewrite variant_lookup_keyed by done.
  rewrite filter_fmap_entries.
  erewrite filter_iff_elem; [done|].
  intros v Hv. apply is_new_entry_spec.
  destruct Hk as [Hk _]. destruct (Hk v Hv) as (i & -> & _). eauto.
Qed.

Lemma detect_changed_keyed f vs :
  keyed vs → (detect_stock_changes f vs).2 ≡ₚ filter (is_changed f) vs.
Proof.
  intros Hk. destruct vs as [|v0 vs0]; [done|].
  set (vs := v0 :: vs0) in *.
  change ((detect_stock_changes f vs).2) with
    ((λ e : string * (CountryVariant * stock_status), e.2.1) <$>
       filter (λ e, is_changed_entry (_load_variant_states f) e = true)
         (map_to_list (build_variant_lookup vs))).
  rewrite variant_lookup_keyed by done.
  rewrite filter_fmap_entries.
  erewrite filter_iff_elem; [done|].
  intros v Hv. apply is_changed_entry_spec.
  destruct Hk as [Hk _]. destruct (Hk v Hv) as (i & -> & _). eauto.
Qed.

(** Exactly one of the three classes holds of a variant. *)
Lemma classes_exclusive f v :
  (is_new f v ∧ ¬ is_changed f v ∧ ¬ is_unchanged f v) ∨
  (¬ is_new f v ∧ is_changed f v ∧ ¬ is_unchanged f v) ∨
  (¬ is_new f v ∧ ¬ is_changed f v ∧ is_unchanged f v).
Proof.
  unfold is_new, is_changed, is_unchanged.
  destruct (persisted f v) as [st|].
  - destruct (decide (stock_status_of st = current_status v)) as [e|n].
    + right; right. split_and!; [done| |eauto]. by intros (? & [= <-] & ?).
    + right; left. split_and!; [done|eauto|]. by intros (? & [= <-] & ?).
  - left. split_and!; [done| |]; by intros (? & [=] & _).
Qed.

Lemma three_way_partition {A} (P Q R : A → Prop) `{!∀ x, Decision (P x)}
    `{!∀ x, Decision (Q x)} `{!∀ x, Decision (R x)} (l : list A) :
  (∀ x, (P x ∧ ¬ Q x ∧ ¬ R x) ∨ (¬ P x ∧ Q x ∧ ¬ R x) ∨ (¬ P x ∧ ¬ Q x ∧ R x)) →
  filter P l ++ filter Q l ++ filter R l ≡ₚ l.
Proof.
  intros Hx. induction l as [|x l IH]; [done|].
  rewrite !filter_cons.
  destruct (decide (P x)), (decide (Q x)), (decide (R x));
    destruct (Hx x) as [(?&?&?)|[(?&?&?)|(?&?&?)]]; try done; simpl.
  - by rewrite IH.
  - rewrite <- Permutation_middle. by rewrite IH.
  - rewrite <- !Permutation_middle. by rewrite IH.
Qed.

(** C2 (amended): on a list of variants with distinct, non-empty ids,
    [detect_stock_changes] returns exactly the variants without
    persisted state as new and exactly those whose persisted
    availability differs from the current one as changed; with the
    remaining (unchanged) variants the three classes are pairwise
    disjoint and together make up the input. *)
Theorem diff_partitions_keyed (f : files) (current_variants : list CountryVariant) :
  keyed current_variants →
  let new_variants := (detect_stock_changes f current_variants).1 in
  let changed_variants := (detect_stock_changes f current_variants).2 in
  let unchanged_variants := filter (is_unchanged f) current_variants in
  (∀ v, v ∈ new_variants ↔ v ∈ current_variants ∧ is_new f v) ∧
  (∀ v, v ∈ changed_variants ↔ v ∈ current_variants ∧ is_changed f v) ∧
  (∀ v, v ∈ unchanged_variants ↔ v ∈ current_variants ∧ is_unchanged f v) ∧
  (∀ v, ¬ (v ∈ new_variants ∧ v ∈ changed_variants)) ∧
  (∀ v, v ∈ unchanged_variants → (v ∉ new_variants) ∧ (v ∉ changed_variants)) ∧
  new_variants ++ changed_variants ++ unchanged_variants ≡ₚ current_variants.
Proof.
  intros Hk new_variants changed_variants unchanged_variants.
  pose proof (detect_new_keyed f _ Hk) as Hnew.
  pose proof (detect_changed_keyed f _ Hk) as Hchg.
  fold new_variants in Hnew. fold changed_variants in Hchg.
  assert (Hn : ∀ v, v ∈ new_variants ↔ v ∈ current_variants ∧ is_new f v).
  { intros v. rewrite Hnew, list_elem_of_filter. tauto. }
  assert (Hc : ∀ v, v ∈ changed_variants ↔ v ∈ current_variants ∧ is_changed f v).
  { intros v. rewrite Hchg, list_elem_of_filter. tauto. }
  assert (Hu : ∀ v, v ∈ unchanged_variants ↔ v ∈ current_variants ∧ is_unchanged f v).
  { intros v. unfold unchanged_variants. rewrite list_elem_of_filter. tauto. }
  split_and!; try done.
  - intros v [H1 H2]. apply Hn in H1 as [_ H1]. apply Hc in H2 as [_ H2].
    destruct (classes_exclusive f v) as [(?&?&?)|[(?&?&?)|(?&?&?)]]; done.
  - intros v H3. apply Hu in H3 as [_ H3]. rewrite Hn, Hc.
    destruct (classes_exclusive f v) as [(?&?&?)|[(?&?&?)|(?&?&?)]]; tauto.
  - rewrite Hnew, Hchg. apply three_way_partition, classes_exclusive.
Qed.

(** C2, as stated, fails when two variants of the list carry the same
    id: the dictionary keeps the last one only, so the first, whose
    availability differs from the persisted one, is not reported as
    changed. *)
Lemma diff_misses_duplicate_id :
  ¬ diff_classifies Samples.one_out_of_stock
      [Samples.row "1" "US" 5 "9"; Samples.row "1" "US" 0 "9"].
Proof.
  intros Hclaim.
  destruct (Hclaim (Samples.row "1" "US" 5 "9")) as [_ [_ Hchanged]]; [left|].
  assert (Hc : is_changed Samples.one_out_of_stock (Samples.row "1" "US" 5 "9")).
  { exists {| stock_status_of := out_of_stock; last_updated := 0 |}.
    split; [reflexivity|discriminate]. }
  apply Hchanged in Hc.
  vm_compute in Hc. inversion Hc.
Qed.

Lemma diff_partitions_keyed_witness :
  let f := Samples.one_out_of_stock in
  let vs := [Samples.row "1" "US" 5 "9"; Samples.row "2" "US" 0 "9"] in
  keyed vs ∧
  (∀ v, v ∈ (detect_stock_changes f vs).1 ↔ v ∈ vs ∧ is_new f v) ∧
  (detect_stock_changes f vs).1 ++ (detect_stock_changes f vs).2
    ++ filter (is_unchanged f) vs ≡ₚ vs.
Proof.
  intros f vs.
  assert (Hk : keyed vs).
  { split.
    - intros v Hv. apply list_elem_of_In in Hv. simpl in Hv.
      destruct Hv as [<-|[<-|[]]]; eexists; (split; [reflexivity|discriminate]).
    - apply (bool_decide_unpack _). vm_compute. exact I. }
  split; [exact Hk|].
  destruct (diff_partitions_keyed f vs Hk) as (Hn & _ & _ & _ & _ & Hp).
  split; [exact Hn|exact Hp].
Defined.

(** The persisted states of one commit agree with the dictionary
    [variant_lookup] of the same list. *)
Lemma commit_covers_lookup ts vs : ∀ lookup states,
  (∀ i v s, lookup !! i = Some (v, s) →
     ∃ st, states !! i = Some st ∧ stock_status_of st = s) →
  ∀ i v s, foldl lookup_step lookup vs !! i = Some (v, s) →
    ∃ st, foldl (update_step ts) states vs !! i = Some st ∧ stock_status_of st = s.
Proof.
  induction vs as [|w vs IH]; intros lookup states Hinv; [done|].
  simpl. apply IH. intros i v s.
  unfold lookup_step, update_step.
  destruct (cv_id w) as [j|]; [|apply Hinv].
  destruct (PyStr.truthy j); [|apply Hinv].
  destruct (decide (j = i)) as [->|Hne].
  - rewrite !lookup_insert_eq. intros [= <- <-]. eauto.
  - rewrite !lookup_insert_ne by done. apply Hinv.
Qed.

Lemma filter_none {A} (P : A → Prop) `{!∀ x, Decision (P x)} (l : list A) :
  (∀ x, x ∈ l → ¬ P x) → filter P l = [].
Proof.
  induction l as [|x l IH]; intros Hl; [done|].
  rewrite filter_cons. destruct (decide (P x)) as [p|_].
  - exfalso. apply (Hl x); [left|done].
  - apply IH. intros y Hy. apply Hl. by right.
Qed.

Lemma detect_nothing_when_covered f vs :
  (∀ i v s, build_variant_lookup vs !! i = Some (v, s) →
     ∃ st, _load_variant_states f !! i = Some st ∧ stock_status_of st = s) →
  detect_stock_changes f vs = ([], []).
Proof.
  intros Hcover. destruct vs as [|v0 vs0]; [done|].
  unfold detect_stock_changes. cbv zeta. f_equal.
  - rewrite filter_none; [done|]. intros [i [v s]] Hin.
    apply elem_of_map_to_list in Hin. destruct (Hcover _ _ _ Hin) as (st & Hst & _).
    unfold is_new_entry. simpl. by rewrite Hst.
  - rewrite filter_none; [done|]. intros [i [v s]] Hin.
    apply elem_of_map_to_list in Hin. destruct (Hcover _ _ _ Hin) as (st & Hst & <-).
    unfold is_changed_entry. simpl. rewrite Hst. simpl.
    by rewrite bool_decide_eq_true_2.
Qed.

(** C8: after committing the same list twice, the diff of that list
    against the persisted states has no new and no changed variant. *)
Theorem commit_twice_then_diff_empty (f : files) (t1 t2 : Z)
    (variants : list CountryVariant) :
  detect_stock_changes
    (update_variant_states t2 variants (update_variant_states t1 variants f))
    variants = ([], []).
Proof.
  destruct variants as [|v0 vs0]; [done|].
  apply detect_nothing_when_covered. intros i v s.
  apply commit_covers_lookup. intros ? ? ?. by rewrite lookup_empty.
Qed.

End StateManagerProperties.

Section ProjectionProperties.
Import ProductLoader ProjectionSpec.

Variable active_countries : gmap string CountryInfo.
Variable location_country_map : gmap string LocationEntry.
Hypothesis Hdash : dash_free_codes active_countries.

Local Notation "'active' c" := (is_Some (active_countries !! c)) (at level 10, c at level 9).
Local Abbreviation credit_country := (credit_country active_countries).
Local Abbreviation credit_level := (credit_level active_countries location_country_map).
Local Abbreviation build_country_inventory :=
  (build_country_inventory active_countries location_country_map).
Local Abbreviation positive_quantity := (positive_quantity location_country_map).
Local Abbreviation positive_credit := (positive_credit location_country_map).
Local Abbreviation keys_of_pairs := (keys_of_pairs active_countries).

Lemma inventory_key_eq v c : inventory_key v c = (v ++ String dash c)%string.
Proof. reflexivity. Qed.

Lemma inventory_key_inj v c v' c' :
  PyStr.has_char dash c = false → PyStr.has_char dash c' = false →
  inventory_key v c = inventory_key v' c' → v = v' ∧ c = c'.
Proof.
  intros Hc Hc' Hk. apply (f_equal (PyStr.rsplit1 dash)) in Hk.
  rewrite !inventory_key_eq, !rsplit1_app_sep in Hk by done. by injection Hk.
Qed.

Lemma credit_country_lookup v q ci c g cc :
  active cc →
  default 0 (credit_country v q ci c !! inventory_key g cc) =
  default 0 (ci !! inventory_key g cc) + (if decide (v = g ∧ c = cc) then q else 0).
Proof.
  intros Hcc. unfold ProductLoader.credit_country.
  case_bool_decide as Hc.
  - cbv zeta. destruct (decide (v = g ∧ c = cc)) as [[-> ->]|Hne].
    + by rewrite lookup_insert_eq.
    + rewrite lookup_insert_ne; [lia|].
      intros Hk. apply Hne. apply inventory_key_inj; auto.
  - destruct (decide (v = g ∧ c = cc)) as [[-> ->]|Hne]; [done|lia].
Qed.

Lemma credit_countries_lookup v q countries : ∀ ci g cc,
  active cc →
  default 0 (foldl (credit_country v q) ci countries !! inventory_key g cc) =
  default 0 (ci !! inventory_key g cc) +
  (if decide (v = g)
   then q * Z.of_nat (length (filter (λ c, c = cc) countries)) else 0).
Proof.
  induction countries as [|c countries IH]; intros ci g cc Hcc; simpl.
  - destruct (decide (v = g)); lia.
  - rewrite IH, credit_country_lookup by done. rewrite filter_cons.
    destruct (decide (v = g)) as [->|Hv].
    + destruct (decide (c = cc)) as [->|Hc].
      * rewrite decide_True by done. simpl length. lia.
      * rewrite decide_False by (intros [_ ?]; done). lia.
    + rewrite decide_False by (intros [? _]; done). lia.
Qed.

Lemma credit_level_lookup v ci level g cc :
  active cc →
  default 0 (credit_level v ci level !! inventory_key g cc) =
  default 0 (ci !! inventory_key g cc) +
  (if decide (v = g) then positive_credit level cc else 0).
Proof.
  intros Hcc.
  unfold ProductLoader.credit_level, ProjectionSpec.positive_credit,
    served_countries, available. cbv zeta.
  destruct (PyStr.truthy (default EmptyString (r_location level))); simpl.
  - destruct (location_country_map !! _) as [entry|].
    + destruct (0 <? _).
      * by apply credit_countries_lookup.
      * destruct (decide (v = g)); lia.
    + destruct (decide (v = g)); [|lia]. destruct (0 <? _); simpl; lia.
  - destruct (decide (v = g)); [|lia]. destruct (0 <? _); simpl; lia.
Qed.

Lemma credit_levels_lookup v levels : ∀ ci g cc,
  active cc →
  default 0 (foldl (credit_level v) ci levels !! inventory_key g cc) =
  default 0 (ci !! inventory_key g cc) +
  (if decide (v = g) then positive_quantity levels cc else 0).
Proof.
  induction levels as [|level levels IH]; intros ci g cc Hcc; simpl.
  - destruct (decide (v = g)); lia.
  - rewrite IH, credit_level_lookup by done. destruct (decide (v = g)); lia.
Qed.

(** The quantity stored under the key of a (variant, country) pair. *)
Lemma build_country_inventory_lookup il g cc :
  active cc →
  default 0 (build_country_inventory il !! inventory_key g cc) =
  positive_quantity (default [] (il !! g)) cc.
Proof.
  unfold ProductLoader.build_country_inventory. revert g cc.
  apply (map_fold_weak_ind (λ ci m, ∀ g cc, active cc →
    default 0 (ci !! inventory_key g cc) = positive_quantity (default [] (m !! g)) cc)).
  - intros g cc _. by rewrite !lookup_empty.
  - intros i x m r Hi IH g cc Hcc.
    rewrite credit_levels_lookup, IH by done.
    destruct (decide (i = g)) as [->|Hne].
    + rewrite Hi, lookup_insert_eq. simpl. lia.
    + rewrite lookup_insert_ne by done. lia.
Qed.

Lemma credit_level_keys v ci level :
  keys_of_pairs ci → keys_of_pairs (credit_level v ci level).
Proof.
  intros Hci. unfold ProductLoader.credit_level. cbv zeta.
  destruct (negb _); [done|].
  destruct (location_country_map !! _) as [entry|]; [|done].
  destruct (0 <? _); [|done].
  generalize dependent ci. induction (le_countries entry) as [|c l IH]; intros ci Hci; [done|].
  simpl. apply IH. unfold ProductLoader.credit_country.
  case_bool_decide as Hc; [|done]. cbv zeta.
  intros k q. destruct (decide (inventory_key v c = k)) as [<-|Hne].
  - eauto.
  - rewrite lookup_insert_ne by done. apply Hci.
Qed.

Lemma build_country_inventory_keys il : keys_of_pairs (build_country_inventory il).
Proof.
  unfold ProductLoader.build_country_inventory.
  apply (map_fold_weak_ind (λ ci _, keys_of_pairs ci)).
  - intros k q. by rewrite lookup_empty.
  - intros i x m r _ Hr. clear m.
    generalize dependent r. induction x as [|level x IH]; intros r Hr; [done|].
    simpl. apply IH. by apply credit_level_keys.
Qed.

(** The target countries: the active countries that received a positive
    quantity from the facts of some parent id. *)
Lemma target_country_iff il code :
  code ∈ countries_with_inventory (build_country_inventory il) ↔
  active code ∧ ∃ parent_id, 0 < positive_quantity (default [] (il !! parent_id)) code.
Proof.
  unfold countries_with_inventory.
  rewrite elem_of_list_to_set, list_elem_of_fmap. split.
  - intros ([k q] & -> & [Hq Hin]%list_elem_of_filter). simpl in *.
    apply elem_of_map_to_list in Hin.
    destruct (build_country_inventory_keys il k q Hin) as (p & c & -> & Hc).
    rewrite inventory_key_eq, last_part_app_sep by (by apply Hdash).
    split; [done|]. exists p.
    rewrite <- build_country_inventory_lookup by done. by rewrite Hin.
  - intros [Hc [p Hp]].
    rewrite <- build_country_inventory_lookup in Hp by done.
    destruct (build_country_inventory il !! inventory_key p code) as [q|] eqn:Hq;
      simpl in Hp; [|lia].
    exists (inventory_key p code, q). split.
    + simpl. by rewrite inventory_key_eq, last_part_app_sep by (by apply Hdash).
    + apply list_elem_of_filter. split; [done|]. by apply elem_of_map_to_list.
Qed.

Local Abbreviation output :=
  (_build_country_variants_from_bulk active_countries location_country_map).
Local Abbreviation row_for := (row_for active_countries).

(** The output, row by row: one row for every variant with a SKU and
    every target country, carrying the quantity stored for the pair. *)
Lemma projection_rows g cv :
  cv ∈ output g ↔
  ∃ gid vd code,
    variants g !! gid = Some vd ∧ PyStr.truthy_opt (r_sku vd) = true ∧
    active code ∧
    (∃ parent_id, 0 < positive_quantity (facts_of g parent_id) code) ∧
    cv = row_for gid vd code (positive_quantity (facts_of g gid) code).
Proof.
  unfold ProductLoader._build_country_variants_from_bulk. cbv zeta.
  rewrite list_elem_of_bind. split.
  - intros ([gid vd] & Hcv & Hin). apply elem_of_map_to_list in Hin.
    unfold rows_of_variant in Hcv. cbv zeta in Hcv. simpl in Hcv.
    apply list_elem_of_bind in Hcv as (code & Hcv & Hcode).
    apply elem_of_elements, target_country_iff in Hcode as [Hact Hpos].
    rewrite bool_decide_eq_true_2 in Hcv by done.
    destruct (PyStr.truthy_opt (r_sku vd)) eqn:Hsku; [|by apply elem_of_nil in Hcv].
    apply list_elem_of_singleton in Hcv as ->.
    exists gid, vd, code. split_and!; try done.
    unfold ProjectionSpec.row_for, _create_country_variant_from_bulk, facts_of.
    by rewrite build_country_inventory_lookup.
  - intros (gid & vd & code & Hvd & Hsku & Hact & Hpos & ->).
    exists (gid, vd). split; [|by apply elem_of_map_to_list].
    unfold rows_of_variant. cbv zeta. simpl.
    apply list_elem_of_bind. exists code. split.
    + rewrite bool_decide_eq_true_2, Hsku by done.
      apply list_elem_of_singleton.
      unfold ProjectionSpec.row_for, _create_country_variant_from_bulk, facts_of.
      by rewrite build_country_inventory_lookup.
    + by apply elem_of_elements, target_country_iff.
Qed.

(** C1 (amended): the rows of the projection are exactly the rows built
    for a variant that has a SKU and a country that is active and
    received a positive quantity from the facts of at least one parent
    id of the run; the variant itself needs no serving location in that
    country. *)
Theorem rows_for_active_stocked_countries (g : Graph) (cv : CountryVariant) :
  cv ∈ _build_country_variants_from_bulk active_countries location_country_map g ↔
  ∃ variant_gid variant_data country_code,
    variants g !! variant_gid = Some variant_data ∧
    PyStr.truthy_opt (r_sku variant_data) = true ∧
    is_Some (active_countries !! country_code) ∧
    (∃ parent_id, 0 < positive_quantity (facts_of g parent_id) country_code) ∧
    cv = _create_country_variant_from_bulk active_countries variant_data
           (r_product variant_data) country_code variant_gid
           (build_country_inventory (inventory_levels g)).
Proof.
  rewrite projection_rows.
  split; intros (gid & vd & code & Hvd & Hsku & Hact & Hpos & ->);
    exists gid, vd, code; split_and!; try done;
    unfold ProjectionSpec.row_for, _create_country_variant_from_bulk, facts_of;
    by rewrite build_country_inventory_lookup.
Qed.

(** C5 (amended): every row of the projection belongs to a variant and
    an active country and carries the sum of the positive available
    quantities of that variant's facts at known, mapped locations
    serving the country, each location in full; the CSV row formatted
    from it says "in stock" when that sum is positive and "out of
    stock" otherwise. *)
Theorem row_quantity_is_positive_sum (g : Graph) (cv : CountryVariant) :
  cv ∈ _build_country_variants_from_bulk active_countries location_country_map g →
  ∃ variant_gid variant_data country_code,
    variants g !! variant_gid = Some variant_data ∧
    is_Some (active_countries !! country_code) ∧
    cv_shopify_variant_id cv = PyStr.last_part slash variant_gid ∧
    cv_country_code cv = Some country_code ∧
    cv_inventory_quantity cv =
      Some (positive_quantity (facts_of g variant_gid) country_code) ∧
    CSVExporter._format_csv_row cv country_code =
      if PyStr.truthy (PyStr.last_part slash variant_gid)
      then Some [PyStr.last_part slash variant_gid; country_code;
                 if 0 <? positive_quantity (facts_of g variant_gid) country_code
                 then "in stock" else "out of stock"]
      else None.
Proof.
  intros (gid & vd & code & Hvd & _ & Hact & _ & ->)%projection_rows.
  exists gid, vd, code. split_and!; try done.
  unfold CSVExporter._format_csv_row, CSVExporter._extract_shopify_variant_id.
  cbv zeta. simpl.
  change (?a +:+ "-" +:+ code) with (a +:+ String dash code).
  rewrite rsplit1_app_sep by (by apply Hdash).
  destruct (PyStr.truthy _); simpl; [|done].
  unfold current_status, status_of_qty. simpl. by destruct (0 <? _).
Qed.

End ProjectionProperties.


Section ProjectionExamples.
Import ProductLoader ProjectionSpec Samples.

Lemma only_US_dash_free : dash_free_codes only_US.
Proof.
  intros code [info Hinfo]. unfold only_US in Hinfo.
  apply lookup_singleton_Some in Hinfo as [<- _]. reflexivity.
Qed.

(** C1, as stated, fails: V2 has no inventory fact at all, yet it gets
    a row for US because V1 is stocked there. *)
Lemma row_without_serving_location :
  ¬ rows_only_where_served only_US two_US_locations (graph_of one_stocked_of_two).
Proof.
  intros Hclaim.
  destruct (Hclaim V2 "US") as (_ & _ & Hserved).
  - exists (variant_record V2 "TEE-L"), 0. split; [reflexivity|].
    apply list_elem_of_In. vm_compute. right; left; reflexivity.
  - apply Hserved. reflexivity.
Qed.

Lemma rows_for_active_stocked_countries_witness :
  dash_free_codes only_US ∧
  (row_for only_US V2 (variant_record V2 "TEE-L") "US" 0
     ∈ _build_country_variants_from_bulk only_US two_US_locations
         (graph_of one_stocked_of_two) ↔
   ∃ variant_gid variant_data country_code,
     variants (graph_of one_stocked_of_two) !! variant_gid = Some variant_data ∧
     PyStr.truthy_opt (r_sku variant_data) = true ∧
     is_Some (only_US !! country_code) ∧
     (∃ parent_id,
        0 < positive_quantity two_US_locations
              (facts_of (graph_of one_stocked_of_two) parent_id) country_code) ∧
     row_for only_US V2 (variant_record V2 "TEE-L") "US" 0 =
       _create_country_variant_from_bulk only_US variant_data
         (r_product variant_data) country_code variant_gid
         (build_country_inventory only_US two_US_locations
            (inventory_levels (graph_of one_stocked_of_two)))).
Proof.
  split; [exact only_US_dash_free|].
  apply (rows_for_active_stocked_countries only_US two_US_locations only_US_dash_free).
Defined.

(** C5, as stated, fails: V1 has 5 available at one US location and -7
    at another; its row carries 5, the sum over the serving facts is
    -2. *)
Lemma row_quantity_skips_negative_fact :
  ¬ rows_carry_summed_quantity only_US two_US_locations (graph_of oversold_at_second).
Proof.
  intros Hclaim.
  assert (Hq : 5 = summed_quantity two_US_locations
                     (facts_of (graph_of oversold_at_second) V1) "US").
  { apply (Hclaim V1 (variant_record V1 "TEE-M") "US" 5); [reflexivity|].
    apply list_elem_of_In. vm_compute. left; reflexivity. }
  vm_compute in Hq. discriminate Hq.
Qed.

Lemma row_quantity_is_positive_sum_witness :
  dash_free_codes only_US ∧
  ∃ variant_gid variant_data country_code,
    variants (graph_of oversold_at_second) !! variant_gid = Some variant_data ∧
    is_Some (only_US !! country_code) ∧
    cv_shopify_variant_id (row_for only_US V1 (variant_record V1 "TEE-M") "US" 5) =
      PyStr.last_part slash variant_gid ∧
    cv_country_code (row_for only_US V1 (variant_record V1 "TEE-M") "US" 5) =
      Some country_code ∧
    cv_inventory_quantity (row_for only_US V1 (variant_record V1 "TEE-M") "US" 5) =
      Some (positive_quantity two_US_locations
              (facts_of (graph_of oversold_at_second) variant_gid) country_code) ∧
    CSVExporter._format_csv_row (row_for only_US V1 (variant_record V1 "TEE-M") "US" 5)
        country_code =
      if PyStr.truthy (PyStr.last_part slash variant_gid)
      then Some [PyStr.last_part slash variant_gid; country_code;
                 if 0 <? positive_quantity two_US_locations
                           (facts_of (graph_of oversold_at_second) variant_gid)
                           country_code
                 then "in stock" else "out of stock"]
      else None.
Proof.
  split; [exact only_US_dash_free|].
  apply (row_quantity_is_positive_sum only_US two_US_locations only_US_dash_free).
  apply list_elem_of_In. vm_compute. left; reflexivity.
Defined.

End ProjectionExamples.


Section RecordGraphProperties.
Import ProductLoader Samples.

(** A line that is not JSON is skipped: the stream parses as if the
    line were not there. *)
Lemma not_json_line_is_skipped before after g :
  parse_lines (before ++ NotJson :: after)%list g = parse_lines (before ++ after)%list g.
Proof.
  revert g. induction before as [|line before IH]; intros g; [done|].
  destruct line; simpl; auto.
Qed.

Lemma load_skips_not_json active_countries location_country_map before after :
  load_products_from_bulk_jsonl active_countries location_country_map
    (Some (before ++ NotJson :: after)%list) =
  load_products_from_bulk_jsonl active_countries location_country_map
    (Some (before ++ after)%list).
Proof.
  unfold load_products_from_bulk_jsonl. by rewrite not_json_line_is_skipped.
Qed.

(** A line that is not UTF-8 ends the parse loop with an exception the
    inner handler does not catch; the outer handler returns the empty
    list. *)
Lemma undecodable_line_aborts before after g :
  (∀ line, line ∈ before → line ≠ Undecodable) →
  parse_lines (before ++ Undecodable :: after)%list g = inl UnicodeDecodeError.
Proof.
  revert g. induction before as [|line before IH]; intros g Hb; [done|].
  destruct line; simpl.
  - done.
  - apply IH. intros l Hl. apply Hb. by right.
  - apply IH. intros l Hl. apply Hb. by right.
  - apply IH. intros l Hl. apply Hb. by right.
Qed.

(** C4 at the scenario of the specification: with the line at position
    3 of ten not decodable, the load returns no row at all, while the
    other nine lines alone give the rows of their four variants; with a
    line that is not JSON at the same position the nine lines' rows are
    returned. *)
Theorem undecodable_third_line_loses_all_rows :
  load_products_from_bulk_jsonl only_US two_US_locations
    (Some ten_lines_third_undecodable) = [] ∧
  length (load_products_from_bulk_jsonl only_US two_US_locations (Some nine_lines)) = 4%nat ∧
  load_products_from_bulk_jsonl only_US two_US_locations
    (Some ten_lines_third_not_json) =
  load_products_from_bulk_jsonl only_US two_US_locations (Some nine_lines).
Proof. split_and!; reflexivity. Qed.

End RecordGraphProperties.

Section MapperChangeDetection.
Import Mapper Orchestrator.

Lemma build_fresh_keeps_files deployment sync now_ (f : Mapper.files) :
  (_build_fresh_mapping deployment sync now_ f).2 = f.
Proof.
  unfold _build_fresh_mapping, mbind, run_bind, Run.bind, Run.call, Run.ret.
  destruct (get_markets_and_countries sync); [done|].
  destruct (get_locations sync); done.
Qed.

Lemma cached_mapping_keeps_files deployment sync now_ (f : Mapper.files) :
  (_get_cached_mapping deployment sync now_ f).2 = f.
Proof.
  unfold _get_cached_mapping, mbind, run_bind, Run.bind, Run.get. simpl.
  destruct (cached_mapping f); [done|]. apply build_fresh_keeps_files.
Qed.

Lemma smart_disabled_result deployment sync now_ (f : Mapper.files) :
  get_mapping_with_change_detection deployment false (Some sync) now_ f =
  match _get_cached_mapping deployment sync now_ f with
  | (inr mapping, f') => (inr (mapping, false, "Smart mapping disabled"), f')
  | (inl e, f') => (inl e, f')
  end.
Proof.
  unfold get_mapping_with_change_detection. simpl.
  unfold mbind, run_bind, Run.bind.
  by destruct (_get_cached_mapping deployment sync now_ f) as [[e|m] f'].
Qed.

(** C10: with smart mapping disabled, in both deployments and for every
    persisted fingerprint, [get_mapping_with_change_detection] leaves
    the comparison file as it is; whenever it returns, it returns
    changed = false with the reason "Smart mapping disabled"; it does
    return, with the cached mapping, when the mapper has its client and
    a cached mapping exists; and the strategy chosen from its answer is
    FULL only when there is no checkpoint. *)
Theorem smart_mapping_disabled_reports_unchanged (deployment : Deployment)
    (shopify_sync : option ShopifySync) (now_ : Z) (f : Mapper.files) :
  let answer :=
    get_mapping_with_change_detection deployment false shopify_sync now_ f in
  comparison_file answer.2 = comparison_file f ∧
  (∀ mapping_data changed reason,
     answer.1 = inr (mapping_data, changed, reason) →
     changed = false ∧ reason = "Smart mapping disabled" ∧
     ∀ w, (_determine_smart_sync_strategy changed reason w).1 = inr (FULL, None) →
          StateManager.load_sync_state (state w) = None) ∧
  (∀ sync cached,
     shopify_sync = Some sync → cached_mapping f = Some cached →
     answer.1 = inr (cached, false, "Smart mapping disabled")) ∧
  (∀ sync fresh,
     shopify_sync = Some sync → cached_mapping f = None →
     (_build_fresh_mapping deployment sync now_ f).1 = inr fresh →
     answer.1 = inr (fresh, false, "Smart mapping disabled")).
Proof.
  intros answer. subst answer. destruct shopify_sync as [sync|]; [|done].
  rewrite smart_disabled_result.
  pose proof (cached_mapping_keeps_files deployment sync now_ f) as Hkeep.
  destruct (_get_cached_mapping deployment sync now_ f) as [[e|m] f'] eqn:Hc;
    simpl in Hkeep; subst f'; simpl.
  - split_and!; [done|done| |].
    + intros sync' cached [= <-] Hcached.
      unfold _get_cached_mapping, mbind, run_bind, Run.bind, Run.get in Hc.
      simpl in Hc. by rewrite Hcached in Hc.
    + intros sync' fresh [= <-] Hcached Hfresh.
      unfold _get_cached_mapping, mbind, run_bind, Run.bind, Run.get in Hc.
      simpl in Hc. rewrite Hcached in Hc. rewrite Hc in Hfresh. done.
  - split_and!; [done| | |].
    + intros mapping_data changed reason [= <- <- <-]. split_and!; [done|done|].
      intros w. unfold _determine_smart_sync_strategy, mbind, run_bind, Run.bind, Run.get.
      simpl. by destruct (StateManager.load_sync_state (state w)).
    + intros sync' cached [= <-] Hcached.
      unfold _get_cached_mapping, mbind, run_bind, Run.bind, Run.get in Hc.
      simpl in Hc. rewrite Hcached in Hc. by injection Hc as ->.
    + intros sync' fresh [= <-] Hcached Hfresh.
      unfold _get_cached_mapping, mbind, run_bind, Run.bind, Run.get in Hc.
      simpl in Hc. rewrite Hcached in Hc. rewrite Hc in Hfresh.
      by injection Hfresh as ->.
Qed.

End MapperChangeDetection.

Section Checkpoint.
Import Orchestrator CheckpointSpec.

Variable SMART_MAPPING_ENABLED : bool.
Variable ENABLE_DATA_VALIDATION : bool.
Variable env : Env.

Lemma keeps_ret {A} (a : A) : keeps_checkpoint (Run.ret a).
Proof. done. Qed.

Lemma keeps_raise {A} e : keeps_checkpoint (@Run.raise World A e).
Proof. done. Qed.

Lemma keeps_call {A} (o : Exn + A) : keeps_checkpoint (Run.call o).
Proof. done. Qed.

Lemma keeps_get : keeps_checkpoint (@Run.get World).
Proof. done. Qed.

Lemma keeps_bind {A B} (m : Run.M World A) (k : A → Run.M World B) :
  keeps_checkpoint m → (∀ a, keeps_checkpoint (k a)) → keeps_checkpoint (m ≫= k).
Proof.
  intros Hm Hk w. unfold mbind, run_bind, Run.bind.
  specialize (Hm w). destruct (m w) as [[e|a] w']; simpl in *; [done|].
  by rewrite Hk.
Qed.

Lemma keeps_zoom_mapping {A} (m : Run.M Mapper.files A) :
  keeps_checkpoint (zoom_mapping m).
Proof. intros w. unfold zoom_mapping. by destruct (m (mapping w)) as [r f]. Qed.

Lemma keeps_on_feeds {A} (f : CSVExporter.OutputDir → CSVExporter.OutputDir * A) :
  keeps_checkpoint (on_feeds f).
Proof. intros w. unfold on_feeds. by destruct (f (feeds w)). Qed.

Lemma keeps_on_state (f : StateManager.files → StateManager.files) :
  (∀ s, StateManager.sync_state (f s) = StateManager.sync_state s) →
  keeps_checkpoint (on_state f).
Proof. intros Hf w. apply Hf. Qed.

Lemma update_variant_states_keeps_sync_state ts vs s :
  StateManager.sync_state (StateManager.update_variant_states ts vs s) =
  StateManager.sync_state s.
Proof. by destruct vs. Qed.

Lemma keeps_validate : keeps_checkpoint (_validate_configuration env).
Proof. unfold _validate_configuration. destruct (config_errors env); done. Qed.

Lemma keeps_strategy changed reason :
  keeps_checkpoint (_determine_smart_sync_strategy changed reason).
Proof.
  unfold _determine_smart_sync_strategy. apply keeps_bind; [apply keeps_get|].
  intros w. destruct changed; [done|]. by destruct (StateManager.load_sync_state _).
Qed.

Lemma keeps_get_shopify_data since mapping_data :
  keeps_checkpoint (_get_shopify_data env since mapping_data).
Proof.
  unfold _get_shopify_data. apply keeps_bind; [apply keeps_call|].
  by intros [lines|].
Qed.

Lemma keeps_process_variants sync_type variants :
  keeps_checkpoint (_process_variants ENABLE_DATA_VALIDATION env sync_type variants).
Proof.
  unfold _process_variants. destruct sync_type.
  - apply keeps_bind; [apply keeps_on_feeds|]. intros created.
    apply keeps_bind; [by apply keeps_on_state|]. intros _.
    apply keeps_bind; [|done].
    apply keeps_on_state, update_variant_states_keeps_sync_state.
  - apply keeps_bind; [apply keeps_get|]. intros w.
    destruct (StateManager.detect_stock_changes _ _) as [new changed].
    assert (Hupdate : keeps_checkpoint
      (created_files ←
         on_feeds (CSVExporter.update_country_feeds_incremental
                     ENABLE_DATA_VALIDATION new changed);
       _ ← on_state (StateManager.update_variant_states (now env) variants);
       Run.ret created_files)).
    { apply keeps_bind; [apply keeps_on_feeds|]. intros created.
      apply keeps_bind; [|done].
      apply keeps_on_state, update_variant_states_keeps_sync_state. }
    destruct new, changed; done.
Qed.

Lemma keeps_upload_files created : keeps_checkpoint (_upload_files env created).
Proof.
  unfold _upload_files. destruct created; [done|].
  destruct (negb _); [done|]. by destruct (upload env _).
Qed.

Lemma commits_of_keeps {A} ts (P : A → Prop) (m : Run.M World A) :
  keeps_checkpoint m → commits_on_return ts P m.
Proof. intros Hm w. specialize (Hm w). destruct (m w) as [[e|a] w']; auto. Qed.

Lemma commits_bind {A B} ts (P : B → Prop) (m : Run.M World A) (k : A → Run.M World B) :
  keeps_checkpoint m → (∀ a, commits_on_return ts P (k a)) →
  commits_on_return ts P (m ≫= k).
Proof.
  intros Hm Hk w. unfold mbind, run_bind, Run.bind.
  specialize (Hm w). destruct (m w) as [[e|a] w']; simpl in *; [done|].
  specialize (Hk a w'). destruct (k a w') as [[e|b] w'']; by rewrite <- Hm.
Qed.

(** Saving the checkpoint as the last step before returning. *)
Lemma commits_save {A} ts (P : A → Prop) (a : A) :
  P a →
  commits_on_return ts P
    (_ ← on_state (StateManager.save_sync_state ts); Run.ret a).
Proof. intros Ha w. by right. Qed.

Lemma smart_sync_commits :
  commits_on_return (now env - 5) smart_exit
    (_run_smart_sync_with_detection SMART_MAPPING_ENABLED ENABLE_DATA_VALIDATION env).
Proof.
  unfold _run_smart_sync_with_detection. cbv zeta.
  apply commits_bind; [apply keeps_validate|]. intros _.
  apply commits_bind; [apply keeps_zoom_mapping|]. intros [[mapping_data changed] reason].
  apply commits_bind; [apply keeps_strategy|]. intros [sync_type since].
  apply commits_bind; [apply keeps_get_shopify_data|]. intros [|v variants].
  - apply commits_save. by left.
  - apply commits_bind; [apply keeps_process_variants|]. intros created.
    apply commits_bind; [apply keeps_call|]. intros _.
    apply commits_save. right. eauto.
Qed.

Lemma full_sync_commits :
  commits_on_return (now env - 5) full_exit
    (_run_full_sync SMART_MAPPING_ENABLED ENABLE_DATA_VALIDATION env).
Proof.
  unfold _run_full_sync. cbv zeta.
  apply commits_bind; [apply keeps_validate|]. intros _.
  apply commits_bind; [apply keeps_zoom_mapping|]. intros [[mapping_data changed] reason].
  apply commits_bind; [apply keeps_get_shopify_data|]. intros [|v variants].
  - by apply commits_of_keeps.
  - apply commits_bind; [apply keeps_process_variants|]. intros created.
    apply commits_bind; [apply keeps_upload_files|]. intros _.
    apply commits_save. by exists created.
Qed.

(** C7: a smart or explicit full run that raises leaves the persisted
    checkpoint as it was; the checkpoint is changed only by a run that
    returned, that is, at the "no data" return of the smart run or
    after the files were processed, and then to the run's timestamp. *)
Theorem aborted_run_keeps_checkpoint (w : World) :
  let smart :=
    _run_smart_sync_with_detection SMART_MAPPING_ENABLED ENABLE_DATA_VALIDATION env w in
  let full := _run_full_sync SMART_MAPPING_ENABLED ENABLE_DATA_VALIDATION env w in
  (∀ e, smart.1 = inl e → checkpoint smart.2 = checkpoint w) ∧
  (∀ e, full.1 = inl e → checkpoint full.2 = checkpoint w) ∧
  (checkpoint smart.2 ≠ checkpoint w →
     (smart.1 = inr NoData ∨ ∃ sync_type created, smart.1 = inr (Processed sync_type created))
     ∧ checkpoint smart.2 = Some (now env - 5)) ∧
  (checkpoint full.2 ≠ checkpoint w →
     (∃ created, full.1 = inr (Processed FULL created))
     ∧ checkpoint full.2 = Some (now env - 5)).
Proof.
  intros smart full.
  pose proof (smart_sync_commits w) as Hs. pose proof (full_sync_commits w) as Hf.
  fold smart in Hs. fold full in Hf.
  clearbody smart full. split_and!.
  - intros e He. destruct smart as [[e0|o] ws]; simpl in *; [done|discriminate].
  - intros e He. destruct full as [[e0|o] wf]; simpl in *; [done|discriminate].
  - intros Hne. destruct smart as [[e0|o] ws]; simpl in *; [done|].
    destruct Hs as [Hs|[Hs Ho]]; [done|]. split; [|done].
    destruct Ho as [->|(sync_type & created & ->)]; eauto.
  - intros Hne. destruct full as [[e0|o] wf]; simpl in *; [done|].
    destruct Hf as [Hf|[Hf [created ->]]]; [done|]. eauto.
Qed.

End Checkpoint.

Section RowIdentifier.
Import CSVExporter TSVExporter.


(** The identifier of a row of the projection is the numeric variant
    id: the country is cut off the composite id again. *)
Lemma extract_variant_id_of_projection numeric_variant_id country_code v :
  PyStr.has_char dash country_code = false →
  cv_id v = Some (numeric_variant_id ++ "-" ++ country_code)%string →
  _extract_shopify_variant_id v = numeric_variant_id.
Proof.
  intros Hdash Hid. unfold _extract_shopify_variant_id. rewrite Hid. simpl.
  change (numeric_variant_id +:+ "-" +:+ country_code)
    with (numeric_variant_id +:+ String dash country_code).
  by rewrite rsplit1_app_sep.
Qed.



End RowIdentifier.

Section FeedFiles.
Import CSVExporter FeedSpec.

Variable ENABLE_DATA_VALIDATION : bool.





Local Abbreviation validate := (_validate_variant_data ENABLE_DATA_VALIDATION).
Local Abbreviation rows_of variants country_code :=
  (header :: formatted_rows ENABLE_DATA_VALIDATION
               (_create_country_variant_generator variants country_code) country_code).
Local Abbreviation write_feed variants :=
  (λ (dir : OutputDir) (country_code : string),
     _create_country_feed_streaming ENABLE_DATA_VALIDATION
       (_create_country_variant_generator variants country_code)
       country_code (feed_name country_code) dir).
Local Abbreviation update_feed new changed :=
  (λ (dir : OutputDir) (country_code : string),
     _update_country_feed_streaming ENABLE_DATA_VALIDATION new changed
       country_code (feed_name country_code) dir).











End FeedFiles.

Section FeedFilesExamples.
Import CSVExporter FeedSpec.


End FeedFilesExamples.


Section JsonProperties.
Import Json.

Lemma append_assoc (a b c : string) : ((a ++ b) ++ c = a ++ (b ++ c))%string.
Proof.
  induction a as [|x a IH]; [reflexivity|].
  change (String x ((a ++ b) ++ c) = String x (a ++ (b ++ c)))%string.
  by rewrite IH.
Qed.

Lemma append_cons (x : ascii) (a b : string) :
  (String x a ++ b = String x (a ++ b))%string.
Proof. reflexivity. Qed.

Lemma append_empty_l (a : string) : (EmptyString ++ a)%string = a.
Proof. reflexivity. Qed.

(** The escape of a character is read back, whatever follows. *)
Lemma unescape_escape_char (c : ascii) (r : string) :
  unescape_prefix (escape_char c ++ r) = Some (c, r).
Proof. destruct c as [[] [] [] [] [] [] [] []]; reflexivity. Qed.

Lemma escape_inj_prefix s1 : ∀ s2 r1 r2,
  (escape s1 ++ String quote r1 = escape s2 ++ String quote r2)%string →
  s1 = s2 ∧ r1 = r2.
Proof.
  induction s1 as [|c1 s1 IH]; intros [|c2 s2] r1 r2 Heq; simpl in Heq;
    rewrite ?append_empty_l in Heq.
  - by injection Heq as ->.
  - rewrite append_assoc in Heq. apply (f_equal unescape_prefix) in Heq.
    by rewrite unescape_escape_char in Heq.
  - rewrite append_assoc in Heq. apply (f_equal unescape_prefix) in Heq.
    by rewrite unescape_escape_char in Heq.
  - rewrite !append_assoc in Heq. apply (f_equal unescape_prefix) in Heq.
    rewrite !unescape_escape_char in Heq. injection Heq as -> Heq.
    by destruct (IH _ _ _ Heq) as [-> ->].
Qed.

Lemma dumps_string_inj_prefix s1 s2 r1 r2 :
  (dumps_string s1 ++ r1 = dumps_string s2 ++ r2)%string → s1 = s2 ∧ r1 = r2.
Proof.
  unfold dumps_string. rewrite !append_cons, !append_assoc, !append_cons, !append_empty_l.
  intros [= Heq]. by apply escape_inj_prefix.
Qed.

Lemma dumps_string_head s r : ∃ t, (dumps_string s ++ r)%string = String quote t.
Proof. unfold dumps_string. rewrite append_cons. eauto. Qed.

Lemma dumps_items_cons x l r :
  (dumps_items (x :: l) ++ r)%string =
  (dumps_string x ++ match l with
                     | [] => r
                     | _ :: _ => String "," (dumps_items l ++ r)
                     end)%string.
Proof.
  destruct l as [|y l]; [done|].
  change (dumps_items (x :: y :: l))
    with (dumps_string x ++ String "," (dumps_items (y :: l)))%string.
  by rewrite append_assoc, append_cons.
Qed.

Lemma dumps_items_inj_prefix l1 : ∀ l2 r1 r2,
  (dumps_items l1 ++ String "]" r1 = dumps_items l2 ++ String "]" r2)%string →
  l1 = l2 ∧ r1 = r2.
Proof.
  induction l1 as [|x1 l1 IH]; intros [|x2 l2] r1 r2 Heq.
  - simpl in Heq. by injection Heq as ->.
  - rewrite dumps_items_cons in Heq.
    destruct (dumps_string_head x2 (match l2 with
                                    | [] => String "]" r2
                                    | _ :: _ => String "," (dumps_items l2 ++ String "]" r2)
                                    end)) as [t Ht].
    rewrite Ht in Heq. discriminate Heq.
  - rewrite dumps_items_cons in Heq.
    destruct (dumps_string_head x1 (match l1 with
                                    | [] => String "]" r1
                                    | _ :: _ => String "," (dumps_items l1 ++ String "]" r1)
                                    end)) as [t Ht].
    rewrite Ht in Heq. discriminate Heq.
  - rewrite !dumps_items_cons in Heq.
    apply dumps_string_inj_prefix in Heq as [-> Heq].
    destruct l1 as [|y1 l1], l2 as [|y2 l2]; try discriminate Heq.
    + by injection Heq as ->.
    + injection Heq as Heq.
      by destruct (IH (y2 :: l2) r1 r2 Heq) as [-> ->].
Qed.

Lemma dumps_list_inj_prefix l1 l2 r1 r2 :
  (dumps_list l1 ++ r1 = dumps_list l2 ++ r2)%string → l1 = l2 ∧ r1 = r2.
Proof.
  unfold dumps_list.
  change ("[" ++ ?a ++ "]")%string with (String "[" (a ++ String "]" EmptyString)).
  rewrite !append_cons, !append_assoc, !append_cons, !append_empty_l.
  intros [= Heq]. by apply dumps_items_inj_prefix.
Qed.

End JsonProperties.

Section Fingerprint.
Import ProductLoader Mapper.

Lemma sorted_keys_spec {A} (m : gmap string A) x :
  x ∈ sorted_keys m ↔ x ∈ dom m.
Proof.
  unfold sorted_keys. rewrite merge_sort_Permutation, elem_of_dom, list_elem_of_fmap.
  split.
  - intros ([k v] & -> & Hin). apply elem_of_map_to_list in Hin. eauto.
  - intros [v Hv]. exists (x, v). split; [done|]. by apply elem_of_map_to_list.
Qed.

(** The sorted keys depend on the key set only. *)
Lemma sorted_keys_of_dom {A B} (m1 : gmap string A) (m2 : gmap string B) :
  dom m1 = dom m2 → sorted_keys m1 = sorted_keys m2.
Proof.
  intros Hdom. apply (Sorted_unique String.le).
  - apply Sorted_merge_sort; apply _.
  - apply Sorted_merge_sort; apply _.
  - unfold sorted_keys. rewrite !merge_sort_Permutation.
    apply NoDup_Permutation; [apply NoDup_fst_map_to_list..|].
    intros x. pose proof (sorted_keys_spec m1 x) as H1.
    pose proof (sorted_keys_spec m2 x) as H2.
    unfold sorted_keys in H1, H2. rewrite merge_sort_Permutation in H1, H2.
    by rewrite H1, H2, Hdom.
Qed.

Lemma dom_of_sorted_keys {A B} (m1 : gmap string A) (m2 : gmap string B) :
  sorted_keys m1 = sorted_keys m2 → dom m1 = dom m2.
Proof.
  intros Hkeys. apply set_eq. intros x.
  by rewrite <- !sorted_keys_spec, Hkeys.
Qed.

Lemma sorted_elements_inj (T1 T2 : gset string) :
  merge_sort String.le (elements T1) = merge_sort String.le (elements T2) → T1 = T2.
Proof.
  intros Heq. apply set_eq. intros x.
  rewrite <- !elem_of_elements.
  rewrite <- (merge_sort_Permutation String.le (elements T1)).
  rewrite <- (merge_sort_Permutation String.le (elements T2)).
  by rewrite Heq.
Qed.

(** The hashed string tells the two sorted key lists (and, in the
    google deployment, the target countries) apart. *)
Lemma hash_string_inj d1 d2 ac1 lm1 ac2 lm2 :
  hash_string d1 ac1 lm1 = hash_string d2 ac2 lm2 →
  sorted_keys ac1 = sorted_keys ac2 ∧ sorted_keys lm1 = sorted_keys lm2 ∧
  match d1, d2 with
  | Google T1, Google T2 => T1 = T2
  | _, _ => True
  end.
Proof.
  unfold hash_string. intros Heq.
  do 3 apply String.app_inj in Heq.
  apply dumps_list_inj_prefix in Heq as [Hc Heq].
  do 3 apply String.app_inj in Heq.
  apply dumps_list_inj_prefix in Heq as [Hl Heq].
  split_and!; [done|done|].
  destruct d1 as [|T1], d2 as [|T2]; try done.
  apply String.app_inj in Heq.
  rewrite !append_assoc in Heq.
  do 2 apply String.app_inj in Heq.
  apply dumps_list_inj_prefix in Heq as [HT _].
  by apply sorted_elements_inj.
Qed.

(** C3 (amended): the fingerprint is computed from the two key sets
    (and, in the google deployment, from the target-country setting)
    alone: mappings with the same country codes and the same location
    ids have the same fingerprint, whatever else differs, so a changed
    fingerprint means a changed key set; and the hashed string, of which
    the fingerprint is the MD5 digest, is the same exactly when both
    key sets are the same. *)
Theorem fingerprint_of_key_sets (deployment : Deployment)
    (ac1 ac2 : gmap string CountryInfo) (lm1 lm2 : gmap string LocationEntry) :
  (dom ac1 = dom ac2 → dom lm1 = dom lm2 →
   _generate_mapping_hash deployment ac1 lm1 = _generate_mapping_hash deployment ac2 lm2) ∧
  (_generate_mapping_hash deployment ac1 lm1 ≠ _generate_mapping_hash deployment ac2 lm2 →
   dom ac1 ≠ dom ac2 ∨ dom lm1 ≠ dom lm2) ∧
  (hash_string deployment ac1 lm1 = hash_string deployment ac2 lm2 ↔
   dom ac1 = dom ac2 ∧ dom lm1 = dom lm2) ∧
  (∀ T1 T2,
     hash_string (Google T1) ac1 lm1 = hash_string (Google T2) ac2 lm2 ↔
     T1 = T2 ∧ dom ac1 = dom ac2 ∧ dom lm1 = dom lm2) ∧
  _generate_mapping_hash deployment ac1 lm1 =
    MD5.hexdigest (hash_string deployment ac1 lm1).
Proof.
  assert (Hstable : dom ac1 = dom ac2 → dom lm1 = dom lm2 →
    hash_string deployment ac1 lm1 = hash_string deployment ac2 lm2).
  { intros Hac Hlm. unfold hash_string.
    by rewrite (sorted_keys_of_dom ac1 ac2 Hac), (sorted_keys_of_dom lm1 lm2 Hlm). }
  split_and!.
  - intros Hac Hlm. unfold _generate_mapping_hash. by rewrite Hstable.
  - intros Hne.
    destruct (decide (dom ac1 = dom ac2)) as [Hac|Hac]; [|by left].
    destruct (decide (dom lm1 = dom lm2)) as [Hlm|Hlm]; [|by right].
    exfalso. apply Hne. unfold _generate_mapping_hash. by rewrite Hstable.
  - split; [|intros [? ?]; by apply Hstable].
    intros (Hac & Hlm & _)%hash_string_inj.
    split; by apply dom_of_sorted_keys.
  - intros T1 T2. split.
    + intros (Hac & Hlm & HT)%hash_string_inj.
      split_and!; [done|by apply dom_of_sorted_keys..].
    + intros (-> & Hac & Hlm). unfold hash_string.
      by rewrite (sorted_keys_of_dom ac1 ac2 Hac), (sorted_keys_of_dom lm1 lm2 Hlm).
  - done.
Qed.

End Fingerprint.

Section FingerprintExamples.
Import Mapper FingerprintSpec Samples.

(** C3, as stated, fails in the google deployment: with the same active
    countries and the same locations, a changed TARGET_COUNTRIES
    setting changes the fingerprint. *)
Lemma target_countries_change_fingerprint :
  ¬ differs_iff_key_sets_differ
      (Google {[ "US"; "CA"; "AE" ]}) (Google {[ "US"; "CA" ]})
      only_US only_US two_US_locations two_US_locations.
Proof.
  intros [Hclaim _]. destruct Hclaim as [Hne|Hne]; [|done|done].
  intros Heq. vm_compute in Heq. discriminate Heq.
Qed.

End FingerprintExamples.

(** * Further properties of the modelled code *)

Section SkuSizeProperties.
Import SkuSize.

Lemma has_char_app_sep sep a b :
  PyStr.has_char sep (a ++ String sep b) = true.
Proof.
  induction a as [|c a IH].
  - change (PyStr.has_char sep (String sep b) = true). simpl.
    by rewrite Ascii.eqb_refl.
  - change (PyStr.has_char sep (String c (a ++ String sep b)) = true). simpl.
    by rewrite IH, orb_true_r.
Qed.

(** [extract_size_from_sku]: a SKU without a dash (or an empty one) has
    the size "Unknown"; of a SKU "STYLE-SIZE" or "STYLE-SIZE-more" the
    size is SIZE; a non-empty [original_sku] is parsed instead of the
    SKU. *)
Theorem size_is_second_sku_segment (style size more : string) :
  PyStr.has_char dash style = false → PyStr.has_char dash size = false →
  extract_size_from_sku (Some (style ++ "-" ++ size)%string) None = size ∧
  extract_size_from_sku (Some (style ++ "-" ++ size ++ "-" ++ more)%string) None = size ∧
  extract_size_from_sku (Some style) None = "Unknown" ∧
  extract_size_from_sku None None = "Unknown" ∧
  (∀ sku, extract_size_from_sku sku (Some (style ++ "-" ++ size)%string) = size).
Proof.
  intros Hstyle Hsize.
  assert (Hone : ∀ o, extract_size_from_sku o (Some (style ++ String dash size)%string) = size
                      ∧ extract_size_from_sku (Some (style ++ String dash size)%string) None = size).
  { assert (Ht : PyStr.truthy (style +:+ String dash size) = true)
      by (by destruct style).
    intros o. unfold extract_size_from_sku, py_or. simpl. rewrite Ht. simpl.
    rewrite Ht, has_char_app_sep. simpl.
    by rewrite split_app_sep, !split_no_sep. }
  split_and!.
  - apply (Hone None).
  - unfold extract_size_from_sku, py_or. simpl.
    change (style +:+ "-" +:+ size +:+ "-" +:+ more)
      with (style +:+ String dash (size +:+ String dash more)).
    assert (Ht : PyStr.truthy (style +:+ String dash (size +:+ String dash more)) = true)
      by (by destruct style).
    rewrite Ht, has_char_app_sep. simpl.
    rewrite !split_app_sep, !split_no_sep by done. simpl.
    pose proof (split_nonempty dash more). by destruct (PyStr.split dash more).
  - unfold extract_size_from_sku, py_or. simpl. rewrite Hstyle.
    by rewrite orb_true_r.
  - done.
  - intros sku. apply (Hone sku).
Qed.

Lemma size_is_second_sku_segment_witness :
  PyStr.has_char dash "TEE" = false ∧ PyStr.has_char dash "M" = false ∧
  extract_size_from_sku (Some ("TEE" ++ "-" ++ "M")%string) None = "M" ∧
  extract_size_from_sku (Some ("TEE" ++ "-" ++ "M" ++ "-" ++ "BLUE")%string) None = "M" ∧
  extract_size_from_sku (Some "TEE") None = "Unknown" ∧
  extract_size_from_sku None None = "Unknown" ∧
  (∀ sku, extract_size_from_sku sku (Some ("TEE" ++ "-" ++ "M")%string) = "M").
Proof.
  split; [reflexivity|]. split; [reflexivity|].
  apply (size_is_second_sku_segment "TEE" "M" "BLUE"); reflexivity.
Defined.

End SkuSizeProperties.
